(** * The bundle and local-agent message protocol and the broker of [rec.dtn]

    A shallow embedding of [rec/dtn/messages.py] and [rec/dtn/broker.py].

    - Python exceptions are the constructors of [exn]; a call that can raise
      returns a [result].
    - Python compares, orders and hashes an [int], a [bool] and a [float]
      by value ([True == 1 == 1.0]).  A field that holds a number holds a
      [number], its value; the enumerations are inductive types coerced to
      the value of their members.
    - A [dict] with string keys is a [gmap string _], a [dict] keyed by the
      members of an enumeration a [gmap number _], a [set] a [gset].
    - The broker's attributes are a record that every handler takes and
      returns, also when it raises: what was mutated before the exception
      stays mutated. *)

From Stdlib Require Import ZArith QArith Qcanon Lqa.
From stdpp Require Import numbers gmap strings list fin_maps.

#[local] Set Warnings "-register-all".
#[local] Open Scope Z_scope.

(** ** Exceptions *)

Inductive exn : Set :=
  | InvalidMessageError   (* messages.py: raised when a message is malformed *)
  | InvalidBundleError    (* messages.py: raised when a bundle is malformed *)
  | TypeError             (* builtin: unhashable key, bad keyword argument *)
  | KeyError              (* builtin: missing dictionary key *)
  | UnpackError           (* msgpack: the bytes are no msgpack value *)
  | Unmodelled.           (* not raised by the source: see [as_bool] *)

Inductive result (A : Type) : Type :=
  | Ok (a : A)
  | Raise (e : exn).
Arguments Ok {A} a.
Arguments Raise {A} e.

#[global] Instance result_ret : MRet result := fun A a => Ok a.
#[global] Instance result_bind : MBind result := fun A B f m =>
  match m with
  | Ok a => f a
  | Raise e => Raise e
  end.

#[global] Instance result_fmap : FMap result := fun A B f m =>
  match m with
  | Ok a => Ok (f a)
  | Raise e => Raise e
  end.

(** [raise_if c e] is [if c: raise e]. *)
Definition raise_if (c : bool) (e : exn) : result unit :=
  if c then Raise e else Ok tt.

(** ** Endpoint identifiers *)

(** Modelled from the spec: [rec/dtn/eid.py] is not among the sources.
    "EID: opaque structured address, textual scheme dtn://node/service";
    "equality and hashing are by normalized textual value".  An [EID] is its
    normalized text, which is also what goes on the wire, and [EID(text)]
    builds it back. *)
Record EID : Set := mkEID { eid_text : string }.

#[global] Instance EID_eq_dec : EqDecision EID.
Proof. solve_decision. Defined.

#[global] Instance EID_countable : Countable EID.
Proof. by apply (inj_countable' eid_text mkEID); intros []. Defined.

(** Truth value of a [str]. *)
Definition str_bool (s : string) : bool := negb (String.eqb s "").

(** Modelled from the spec: the truth value of an EID ("falsy/empty EID is
    invalid wherever an address is required") is decided by [eid.py]; it is
    kept as a parameter of the development.  Of this parameter the spec
    tells that "x is truthy/non-empty iff it was constructed with a
    non-empty node component": the text of a truthy EID is not empty. *)
Class EIDTruth := {
  EID_bool : EID → bool;
  EID_bool_text : ∀ e, EID_bool e = true → str_bool (eid_text e) = true;
}.

(** The instance used for the examples: the null endpoint and the empty
    one are the falsy ones (messages.py: "EndpointID must not be
    dtn:none"). *)
Definition dtn_none_falsy : EIDTruth :=
  {| EID_bool e :=
       str_bool (eid_text e) && negb (String.eqb (eid_text e) "dtn:none");
     EID_bool_text e H := proj1 (andb_prop _ _ H) |}.

(** ** Numbers *)

(** The value of a Python number: of an [int], of a [bool] (0 or 1) or of a
    finite [float].  Python's [==], [<], [<=] and [hash] on numbers go by
    this value, whatever the type of the object. *)
Definition number : Set := Qc.

Definition number_of_Z (z : Z) : number := Qc_of_Z z.
Coercion number_of_Z : Z >-> number.

(** The value of a fraction: the floats that are no integer. *)
Definition number_of_Q (q : Q) : number := Q2Qc q.

#[global] Instance number_eq_dec : EqDecision number := Qc_eq_dec.
#[global] Instance number_countable : Countable number := Qc_countable.

Definition num_le (x y : number) : Prop := Qcle x y.
Definition num_lt (x y : number) : Prop := Qclt x y.

#[global] Instance num_le_dec : RelDecision num_le := Qc_le_dec.
#[global] Instance num_lt_dec : RelDecision num_lt := Qc_lt_dec.

(** [x == y], [x <= y] and [x < y] on numbers. *)
Definition num_eqb (x y : number) : bool := bool_decide (x = y).
Definition num_leb (x y : number) : bool := bool_decide (num_le x y).
Definition num_ltb (x y : number) : bool := bool_decide (num_lt x y).

Declare Scope number_scope.
Delimit Scope number_scope with num.
Notation "x ≤ y" := (num_le x y) : number_scope.
Notation "x < y" := (num_lt x y) : number_scope.
Notation "x ≤ y ≤ z" := (num_le x y ∧ num_le y z) : number_scope.
Notation "x =? y" := (num_eqb x y) : number_scope.
Notation "x <=? y" := (num_leb x y) : number_scope.
Notation "x <? y" := (num_ltb x y) : number_scope.
Notation "x >? y" := (num_ltb y x) : number_scope.
#[local] Open Scope number_scope.

(** The integer that a number is, when it is one. *)
Definition number_as_Z (x : number) : option Z :=
  match this x with
  | Qmake n 1%positive => Some n
  | _ => None
  end.

(** ** Plain Python data: what a dictified message holds and what msgpack
    packs and unpacks.  An EID appears as its text, an enumeration member as
    its integer.  [PFloat x] is the finite float of value [x]. *)
Inductive pyval : Type :=
  | PNone
  | PBool (b : bool)
  | PInt (z : Z)
  | PFloat (x : number)
  | PStr (s : string)
  | PBytes (bs : list Byte.byte)
  | PList (l : list pyval)
  | PDict (d : gmap string pyval).

(** Truth values of the builtin types: a number is falsy when it is zero,
    a [bytes] or a [list] when it is empty. *)
Definition num_bool (x : number) : bool := negb (x =? 0).
Definition bytes_bool (bs : list Byte.byte) : bool :=
  match bs with [] => false | _ => true end.
Definition list_bool {A} (l : list A) : bool :=
  match l with [] => false | _ => true end.

(** ** Enumerations *)

Inductive NodeType : Set := BROKER | EXECUTOR | DATASTORE | CLIENT.

Definition NodeType_value (t : NodeType) : Z :=
  match t with
  | BROKER => 1
  | EXECUTOR => 2
  | DATASTORE => 3
  | CLIENT => 4
  end.
Coercion NodeType_value : NodeType >-> Z.

Inductive MessageType : Set := REPLY | REGISTER | FETCH | FETCH_REPLY | CREATE.

Definition MessageType_value (t : MessageType) : Z :=
  match t with
  | REPLY => 1
  | REGISTER => 2
  | FETCH => 3
  | FETCH_REPLY => 4
  | CREATE => 5
  end.
Coercion MessageType_value : MessageType >-> Z.

Inductive BundleType : Set :=
  | BROKER_ANNOUNCE | BROKER_REQUEST | BROKER_ACK
  | JOB_SUBMIT | JOB_RESULT | JOB_QUERY | JOB_LIST
  | NDATA_PUT | NDATA_GET | NDATA_DEL.

Definition BundleType_value (t : BundleType) : Z :=
  match t with
  | BROKER_ANNOUNCE => 1
  | BROKER_REQUEST => 2
  | BROKER_ACK => 3
  | JOB_SUBMIT => 11
  | JOB_RESULT => 12
  | JOB_QUERY => 13
  | JOB_LIST => 14
  | NDATA_PUT => 21
  | NDATA_GET => 22
  | NDATA_DEL => 23
  end.
Coercion BundleType_value : BundleType >-> Z.

(** [x] is the value of a member of the enumeration. *)
Definition is_NodeType (x : number) : Prop := ∃ t : NodeType, x = t.
Definition is_MessageType (x : number) : Prop := ∃ t : MessageType, x = t.
Definition is_BundleType (x : number) : Prop := ∃ t : BundleType, x = t.

(** A number as plain data.  The records hold a number by its value, so
    the plain form is that of the value: an [int] when the value is an
    integer, a [float] when it is not. *)
Definition number_pyval (x : number) : pyval :=
  match number_as_Z x with
  | Some z => PInt z
  | None => PFloat x
  end.

(** ** BundleData *)

(** [named_data: str | list[str] | None]: the two non-[None] shapes. *)
Inductive named : Set :=
  | Name (s : string)
  | Names (l : list string).

Module BundleData.

Record t : Set := mk {
  type : number;                  (* BundleType *)
  source : EID;
  destination : EID;
  payload : list Byte.byte;       (* = b"" *)
  success : bool;                 (* = True *)
  error : string;                 (* = "" *)
  node_type : number;             (* NodeType = 0 *)
  submitter : option EID;         (* = None *)
  named_data : option named;      (* = None *)
}.

Definition submitter_bool `{truth : EIDTruth} (s : option EID) : bool :=
  match s with
  | None => false
  | Some e => EID_bool e
  end.

Definition named_data_bool (n : option named) : bool :=
  match n with
  | None => false
  | Some (Name s) => str_bool s
  | Some (Names l) => list_bool l
  end.

(** [__post_init__]: the checks in the order of the source. *)
Definition post_init `{truth : EIDTruth} (b : t) : result unit :=
  raise_if (negb (EID_bool (source b))) InvalidBundleError ;;
  raise_if (negb (EID_bool (destination b))) InvalidBundleError ;;
  raise_if (negb (success b) && negb (str_bool (error b))) InvalidBundleError ;;
  raise_if (success b && str_bool (error b)) InvalidBundleError ;;
  (if (BROKER_ANNOUNCE <=? type b) && (type b <=? BROKER_ACK)
   then raise_if ((node_type b <? BROKER) || (node_type b >? CLIENT))
          InvalidBundleError
   else Ok tt) ;;
  (if (type b =? JOB_QUERY) || (type b =? JOB_LIST)
   then raise_if (negb (submitter_bool (submitter b))) InvalidBundleError
   else Ok tt) ;;
  (if (NDATA_PUT <=? type b) && (type b <=? NDATA_DEL)
   then raise_if (negb (named_data_bool (named_data b))) InvalidBundleError
   else Ok tt).

(** The constructor of the dataclass: the instance exists only if
    [__post_init__] returns. *)
Definition new `{truth : EIDTruth} (b : t) : result t :=
  post_init b ;; Ok b.

(** A bundle that construction accepts. *)
Definition valid `{truth : EIDTruth} (b : t) : Prop := post_init b = Ok tt.

Definition named_data_value (n : named) : pyval :=
  match n with
  | Name s => PStr s
  | Names l => PList (PStr <$> l)
  end.

(** [self.__dict__.items()], in field order: each key with the truth value
    of its value and the value as plain data. *)
Definition items `{truth : EIDTruth} (b : t) : list (string * (bool * pyval)) :=
  [ ("type", (num_bool (type b), number_pyval (type b)));
    ("source", (EID_bool (source b), PStr (eid_text (source b))));
    ("destination", (EID_bool (destination b), PStr (eid_text (destination b))));
    ("payload", (bytes_bool (payload b), PBytes (payload b)));
    ("success", (success b, PBool (success b)));
    ("error", (str_bool (error b), PStr (error b)));
    ("node_type", (num_bool (node_type b), number_pyval (node_type b)));
    ("submitter", (submitter_bool (submitter b),
                   from_option (λ e, PStr (eid_text e)) PNone (submitter b)));
    ("named_data", (named_data_bool (named_data b),
                    from_option named_data_value PNone (named_data b))) ].

(** [key: value ... if value]: the filter of the comprehension. *)
Definition keep_truthy (kv : string * (bool * pyval)) : option (string * pyval) :=
  let '(key, (truth, value)) := kv in
  if truth then Some (key, value) else None.

(** [dictify]: the comprehension keeps the items whose value is truthy,
    then [data["success"]] is assigned. *)
Definition dictify `{truth : EIDTruth} (b : t) : gmap string pyval :=
  let data : gmap string pyval := list_to_map (omap keep_truthy (items b)) in
  <["success" := PBool (success b)]> data.

(** The bundle is written on the wire without loss: [type] is not zero
    (no declared [BundleType] is), and the two optional fields hold [None]
    or a truthy value. *)
Definition exact_on_wire `{truth : EIDTruth} (b : t) : Prop :=
  type b ≠ 0 ∧
  (is_Some (submitter b) → submitter_bool (submitter b) = true) ∧
  (is_Some (named_data b) → named_data_bool (named_data b) = true).

(** The attribute of a bundle under a name: the truth value of the field
    and its value, [None] when the name is no field. *)
Definition attribute `{truth : EIDTruth} (b : t) (key : string) : option (bool * pyval) :=
  (list_to_map (items b) : gmap string (bool * pyval)) !! key.

End BundleData.

(** ** Keyword construction and typed reads of decoded data *)

(** [cls( **data )]: a key that is no field, or a field without default that
    is missing, is a [TypeError]. *)
Definition check_kwargs (fields required : list string)
    (data : gmap string pyval) : result unit :=
  raise_if (negb (bool_decide (dom data ⊆ list_to_set fields))) TypeError ;;
  raise_if (negb (forallb (λ k, bool_decide (is_Some (data !! k))) required))
    TypeError.

(** [data[key]] on a dict. *)
Definition getitem (data : gmap string pyval) (key : string) : result pyval :=
  match data !! key with
  | Some v => Ok v
  | None => Raise KeyError
  end.

(** The dataclasses store whatever value they are given.  A field that is
    annotated with an enumeration is stored, compared and looked up as a
    number, so every decoded number is read: an [int], a [bool], which is
    the integer 0 or 1, and a [float]. *)
Definition as_number (v : pyval) : result number :=
  match v with
  | PInt z => Ok (z : number)
  | PBool b => Ok (Z.b2z b : number)
  | PFloat x => Ok x
  | _ => Raise Unmodelled
  end.

(** The other fields are typed after the annotations of the source, so a
    decoded value of another shape cannot be stored: reading it raises
    [Unmodelled], which is no exception of the source. *)
Definition as_bool (v : pyval) : result bool :=
  match v with PBool b => Ok b | _ => Raise Unmodelled end.
Definition as_str (v : pyval) : result string :=
  match v with PStr s => Ok s | _ => Raise Unmodelled end.
Definition as_bytes (v : pyval) : result (list Byte.byte) :=
  match v with PBytes bs => Ok bs | _ => Raise Unmodelled end.
Definition as_list (v : pyval) : result (list pyval) :=
  match v with PList l => Ok l | _ => Raise Unmodelled end.
Definition as_dict (v : pyval) : result (gmap string pyval) :=
  match v with PDict d => Ok d | _ => Raise Unmodelled end.

(** [EID(value)] on a decoded value. *)
Definition as_EID (v : pyval) : result EID := mkEID <$> as_str v.

(** A field with a default: the default when the key is absent. *)
Definition field_or {A} (data : gmap string pyval) (key : string)
    (read : pyval → result A) (default : A) : result A :=
  match data !! key with
  | Some v => read v
  | None => Ok default
  end.

(** [for x in l] with a body that can raise. *)
Fixpoint mapM {A B} (f : A → result B) (l : list A) : result (list B) :=
  match l with
  | [] => Ok []
  | x :: l' => y ← f x; ys ← mapM f l'; Ok (y :: ys)
  end.

Definition as_named (v : pyval) : result (option named) :=
  match v with
  | PNone => Ok None
  | PStr s => Ok (Some (Name s))
  | PList l => l' ← mapM as_str l; Ok (Some (Names l'))
  | _ => Raise Unmodelled
  end.

Module BundleDataCodec.
Import BundleData.

Definition fields : list string :=
  ["type"; "source"; "destination"; "payload"; "success"; "error";
   "node_type"; "submitter"; "named_data"].

(** [BundleData.from_dict]: [source] and [destination] are read (a missing
    one is a [KeyError]) and turned into EIDs, [submitter] too when present,
    then the class is called with the dict as keyword arguments. *)
Definition from_dict `{truth : EIDTruth} (data : gmap string pyval) : result t :=
  src ← getitem data "source";
  src ← as_EID src;
  dst ← getitem data "destination";
  dst ← as_EID dst;
  sub ← match data !! "submitter" with
        | Some v => Some <$> as_EID v
        | None => Ok None
        end;
  check_kwargs fields ["type"; "source"; "destination"] data ;;
  ty ← getitem data "type";
  ty ← as_number ty;
  pl ← field_or data "payload" as_bytes [];
  su ← field_or data "success" as_bool true;
  er ← field_or data "error" as_str "";
  nt ← field_or data "node_type" as_number 0;
  nd ← field_or data "named_data" as_named None;
  new {| type := ty; source := src; destination := dst; payload := pl;
         success := su; error := er; node_type := nt; submitter := sub;
         named_data := nd |}.

End BundleDataCodec.

(** ** The local-agent messages *)

Module Reply.

Record t : Set := mk {
  type : number;                    (* MessageType *)
  success : bool;
  error : string;
}.

Definition post_init (m : t) : result unit :=
  raise_if (negb (type m =? REPLY)) InvalidMessageError ;;
  raise_if (negb (success m) && negb (str_bool (error m))) InvalidMessageError ;;
  raise_if (success m && str_bool (error m)) InvalidMessageError.

Definition new (m : t) : result t := post_init m ;; Ok m.

(** [parent_dict | own_dict], both being [self.__dict__]. *)
Definition dictify (m : t) : gmap string pyval :=
  {[ "type" := number_pyval (type m); "success" := PBool (success m);
     "error" := PStr (error m) ]}.

Definition fields : list string := ["type"; "success"; "error"].

Definition from_dict (data : gmap string pyval) : result t :=
  check_kwargs fields fields data ;;
  ty ← getitem data "type";
  ty ← as_number ty;
  su ← getitem data "success";
  su ← as_bool su;
  er ← getitem data "error";
  er ← as_str er;
  new {| type := ty; success := su; error := er |}.

End Reply.

Module Register.

Record t : Set := mk {
  type : number;
  endpoint_id : EID;
}.

Definition post_init `{truth : EIDTruth} (m : t) : result unit :=
  raise_if (negb (type m =? REGISTER)) InvalidMessageError ;;
  raise_if (negb (EID_bool (endpoint_id m))) InvalidMessageError.

Definition new `{truth : EIDTruth} (m : t) : result t := post_init m ;; Ok m.

Definition dictify (m : t) : gmap string pyval :=
  {[ "type" := number_pyval (type m);
     "endpoint_id" := PStr (eid_text (endpoint_id m)) ]}.

Definition fields : list string := ["type"; "endpoint_id"].

(** [cls( **data )]: the decoded text is stored as it is, no [EID] is built
    from it, so [__post_init__] runs on a [str] and its check of
    [endpoint_id] is the truth value of that [str]: the empty text is
    refused, every other text is accepted, [dtn:none] too.  The text
    compares equal to the EID of that text, which is what the record
    holds. *)
Definition from_dict (data : gmap string pyval) : result t :=
  check_kwargs fields fields data ;;
  ty ← getitem data "type";
  ty ← as_number ty;
  ep ← getitem data "endpoint_id";
  ep ← as_str ep;
  raise_if (negb (ty =? REGISTER)) InvalidMessageError ;;
  raise_if (negb (str_bool ep)) InvalidMessageError ;;
  Ok {| type := ty; endpoint_id := mkEID ep |}.

End Register.

Module Fetch.

Record t : Set := mk {
  type : number;
  endpoint_id : EID;
  node_type : number;               (* NodeType *)
}.

Definition post_init `{truth : EIDTruth} (m : t) : result unit :=
  raise_if (negb (type m =? FETCH)) InvalidMessageError ;;
  raise_if (negb (EID_bool (endpoint_id m))) InvalidMessageError.

Definition new `{truth : EIDTruth} (m : t) : result t := post_init m ;; Ok m.

Definition dictify (m : t) : gmap string pyval :=
  {[ "type" := number_pyval (type m);
     "endpoint_id" := PStr (eid_text (endpoint_id m));
     "node_type" := number_pyval (node_type m) ]}.

Definition fields : list string := ["type"; "endpoint_id"; "node_type"].

(** [cls( **data )]: as for [Register], the decoded text of the endpoint is
    stored as it is and [__post_init__] checks it as a [str]. *)
Definition from_dict (data : gmap string pyval) : result t :=
  check_kwargs fields fields data ;;
  ty ← getitem data "type";
  ty ← as_number ty;
  ep ← getitem data "endpoint_id";
  ep ← as_str ep;
  nt ← getitem data "node_type";
  nt ← as_number nt;
  raise_if (negb (ty =? FETCH)) InvalidMessageError ;;
  raise_if (negb (str_bool ep)) InvalidMessageError ;;
  Ok {| type := ty; endpoint_id := mkEID ep; node_type := nt |}.

End Fetch.

Module FetchReply.

Record t : Set := mk {
  type : number;
  success : bool;
  error : string;
  bundles : list BundleData.t;
}.

(** The override checks the tag only: the checks of [Reply] on [success]
    and [error] are not run. *)
Definition post_init (m : t) : result unit :=
  raise_if (negb (type m =? FETCH_REPLY)) InvalidMessageError.

Definition new (m : t) : result t := post_init m ;; Ok m.

(** [super().dictify() | {"bundles": [...]}]: the entry of the parent for
    [bundles] is replaced by the dictified bundles. *)
Definition dictify `{truth : EIDTruth} (m : t) : gmap string pyval :=
  <["bundles" := PList ((λ b, PDict (BundleData.dictify b)) <$> bundles m)]>
    {[ "type" := number_pyval (type m); "success" := PBool (success m);
       "error" := PStr (error m) ]}.

Definition fields : list string := ["type"; "success"; "error"; "bundles"].

Definition from_dict `{truth : EIDTruth} (data : gmap string pyval) : result t :=
  bs ← getitem data "bundles";
  bs ← as_list bs;
  bs ← mapM (λ bundle_data, d ← as_dict bundle_data; BundleDataCodec.from_dict d) bs;
  check_kwargs fields fields data ;;
  ty ← getitem data "type";
  ty ← as_number ty;
  su ← getitem data "success";
  su ← as_bool su;
  er ← getitem data "error";
  er ← as_str er;
  new {| type := ty; success := su; error := er; bundles := bs |}.

End FetchReply.

Module BundleCreate.

Record t : Set := mk {
  type : number;
  bundle : BundleData.t;
}.

Definition post_init (m : t) : result unit :=
  raise_if (negb (type m =? CREATE)) InvalidMessageError.

Definition new (m : t) : result t := post_init m ;; Ok m.

Definition dictify `{truth : EIDTruth} (m : t) : gmap string pyval :=
  {[ "type" := number_pyval (type m);
     "bundle" := PDict (BundleData.dictify (bundle m)) ]}.

Definition fields : list string := ["type"; "bundle"].

Definition from_dict `{truth : EIDTruth} (data : gmap string pyval) : result t :=
  b ← getitem data "bundle";
  b ← as_dict b;
  b ← BundleDataCodec.from_dict b;
  check_kwargs fields fields data ;;
  ty ← getitem data "type";
  ty ← as_number ty;
  new {| type := ty; bundle := b |}.

End BundleCreate.

Inductive Message : Set :=
  | MReply (m : Reply.t)
  | MRegister (m : Register.t)
  | MFetch (m : Fetch.t)
  | MFetchReply (m : FetchReply.t)
  | MBundleCreate (m : BundleCreate.t).

(** A message that construction accepts, its nested bundles included. *)
Definition Message_valid `{truth : EIDTruth} (message : Message) : Prop :=
  match message with
  | MReply m => Reply.post_init m = Ok tt
  | MRegister m => Register.post_init m = Ok tt
  | MFetch m => Fetch.post_init m = Ok tt
  | MFetchReply m =>
      FetchReply.post_init m = Ok tt ∧
      Forall BundleData.valid (FetchReply.bundles m)
  | MBundleCreate m =>
      BundleCreate.post_init m = Ok tt ∧
      BundleData.valid (BundleCreate.bundle m)
  end.

Definition Message_exact_on_wire `{truth : EIDTruth} (message : Message) : Prop :=
  match message with
  | MFetchReply m => Forall BundleData.exact_on_wire (FetchReply.bundles m)
  | MBundleCreate m => BundleData.exact_on_wire (BundleCreate.bundle m)
  | _ => True
  end.

(** ** serialize and deserialize *)

(** The msgpack library is external: [packb] and [unpackb] are taken as
    they come.  [unpackb] answers [None] where the library raises. *)
Class Msgpack := {
  packb : pyval → list Byte.byte;
  unpackb : list Byte.byte → option pyval;
}.

Definition Message_dictify `{truth : EIDTruth} (message : Message) : gmap string pyval :=
  match message with
  | MReply m => Reply.dictify m
  | MRegister m => Register.dictify m
  | MFetch m => Fetch.dictify m
  | MFetchReply m => FetchReply.dictify m
  | MBundleCreate m => BundleCreate.dictify m
  end.

Definition serialize `{truth : EIDTruth, codec : Msgpack} (message : Message) : list Byte.byte :=
  let data := Message_dictify message in
  packb (PDict data).

Definition MESSAGE_CONSTRUCTORS `{truth : EIDTruth}
    : gmap number (gmap string pyval → result Message) :=
  {[ (REPLY : number) := λ data, MReply <$> Reply.from_dict data;
     (REGISTER : number) := λ data, MRegister <$> Register.from_dict data;
     (FETCH : number) := λ data, MFetch <$> Fetch.from_dict data;
     (FETCH_REPLY : number) := λ data, MFetchReply <$> FetchReply.from_dict data;
     (CREATE : number) := λ data, MBundleCreate <$> BundleCreate.from_dict data ]}.

(** [value[key]] on any decoded value: only a dict can be indexed by a
    string. *)
Definition subscript (value : pyval) (key : string) : result pyval :=
  match value with
  | PDict d => getitem d key
  | _ => Raise TypeError
  end.

(** [key in table] and [table[key]] for a table whose keys are numbers:
    the key is hashed first, which raises [TypeError] for a list or a dict;
    a number finds the entry of its value, a bool being the integer 0 or 1;
    nothing else equals a number. *)
Definition lookup_number_key {A} (table : gmap number A) (key : pyval)
    : result (option A) :=
  match key with
  | PInt z => Ok (table !! (z : number))
  | PBool b => Ok (table !! (Z.b2z b : number))
  | PFloat x => Ok (table !! x)
  | PNone | PStr _ | PBytes _ => Ok None
  | PList _ | PDict _ => Raise TypeError
  end.

(** A tag that Python can hash. *)
Definition hashable (tag : pyval) : Prop :=
  match tag with
  | PList _ | PDict _ => False
  | _ => True
  end.

(** A tag that equals a member of [MessageType]: an integer or a float
    whose value is one, or the bool [True], which equals 1. *)
Definition names_MessageType (tag : pyval) : Prop :=
  match tag with
  | PInt z => is_MessageType z
  | PFloat x => is_MessageType x
  | PBool b => b = true
  | _ => False
  end.

Definition deserialize `{truth : EIDTruth, codec : Msgpack} (serialized : list Byte.byte)
    : result Message :=
  data_dict ← from_option Ok (Raise UnpackError) (unpackb serialized);
  tag ← subscript data_dict "type";
  constructor ← lookup_number_key MESSAGE_CONSTRUCTORS tag;
  match constructor with
  | None => Raise InvalidMessageError
  | Some from_dict =>
      match data_dict with
      | PDict d => from_dict d
      | _ => Raise TypeError
      end
  end.

(** ** The broker *)

(** Modelled from the spec: [rec/dtn/job.py] is not among the sources.  A
    [JobInfo] is a hashable job description and [dictify_job_infos] turns
    the job descriptions of an iterable into plain data. *)
Class Jobs := {
  JobInfo : Type;
  JobInfo_eq_dec :: EqDecision JobInfo;
  JobInfo_countable :: Countable JobInfo;
  dictify_job_infos : list JobInfo → pyval;
}.

Module Broker.

(** The attributes that the handlers of [broker.py] read or write.
    [node_id] and [node_type] are set by [Node.__init__]; the agent socket
    and the state lock are not represented: the handlers run one at a time
    here. *)
Record t `{jobs : Jobs} : Type := mk {
  node_id : EID;
  node_type : number;
  completed_jobs : gset JobInfo;
  queued_jobs : list JobInfo;
  discovered_nodes : gmap number (gset EID);
}.

Section handlers.
Context `{truth : EIDTruth, codec : Msgpack, jobs : Jobs}.

(** [Broker.__init__]. *)
Definition init (node_id : EID) : t :=
  {| node_id := node_id;
     node_type := BROKER;
     completed_jobs := ∅;
     queued_jobs := [];
     discovered_nodes :=
       {[ (BROKER : number) := ∅; (CLIENT : number) := ∅;
          (EXECUTOR : number) := ∅; (DATASTORE : number) := ∅ ]} |}.

Definition set_discovered_nodes (self : t) (d : gmap number (gset EID)) : t :=
  {| node_id := node_id self;
     node_type := node_type self;
     completed_jobs := completed_jobs self;
     queued_jobs := queued_jobs self;
     discovered_nodes := d |}.

(** [self.discovered_nodes[key].add(eid)]: the dict is looked up by the
    value of the key; [KeyError] when no key has that value, else the set
    under the key grows in place. *)
Definition discover (self : t) (key : number) (eid : EID) : t * result unit :=
  match discovered_nodes self !! key with
  | None => (self, Raise KeyError)
  | Some nodes =>
      (set_discovered_nodes self (<[key := {[eid]} ∪ nodes]> (discovered_nodes self)),
       Ok tt)
  end.

Definition _handle_job_query (self : t) (bundle : BundleData.t)
    : t * result BundleData.t :=
  let jobs : gmap string pyval :=
    {[ "completed" := dictify_job_infos (elements (completed_jobs self));
       "queued" := dictify_job_infos (queued_jobs self) ]} in
  let jobs_bytes := packb (PDict jobs) in
  let bundle_response :=
    BundleData.new
      {| BundleData.type := JOB_LIST;
         BundleData.source := node_id self;
         BundleData.destination := BundleData.source bundle;
         BundleData.payload := jobs_bytes;
         BundleData.success := true;
         BundleData.error := "";
         BundleData.node_type := 0;
         BundleData.submitter := BundleData.submitter bundle;
         BundleData.named_data := None |} in
  (self, bundle_response).

Definition _handle_discovery (self : t) (bundle : BundleData.t)
    : t * result (option BundleData.t) :=
  if BundleData.type bundle =? BROKER_ANNOUNCE then
    if bool_decide (BundleData.source bundle ≠ node_id self) then
      let '(self, r) := discover self BROKER (BundleData.source bundle) in
      (self, r ;; Ok None)
    else (self, Ok None)
  else if BundleData.type bundle =? BROKER_REQUEST then
    let '(self, r) :=
      discover self (BundleData.node_type bundle) (BundleData.source bundle) in
    (self,
     r ;;
     Some <$> BundleData.new
       {| BundleData.type := BROKER_ACK;
          BundleData.source := node_id self;
          BundleData.destination := BundleData.source bundle;
          BundleData.payload := [];
          BundleData.success := true;
          BundleData.error := "";
          BundleData.node_type := node_type self;
          BundleData.submitter := None;
          BundleData.named_data := None |})
  else (self, Ok None).

Definition _handle_bundle (self : t) (bundle : BundleData.t)
    : t * result (option BundleData.t) :=
  if BundleData.type bundle =? JOB_QUERY then
    let '(self, reply) := _handle_job_query self bundle in
    (self, Some <$> reply)
  else if (BROKER_ANNOUNCE <=? BundleData.type bundle)
          && (BundleData.type bundle <=? BROKER_ACK) then
    _handle_discovery self bundle
  else (self, Ok None).

(** The [for] loop of [_handle_bundles]: the bundles are handled in order,
    a reply that is not [None] is appended to [replies]; an exception
    leaves the loop. *)
Fixpoint handle_each (self : t) (bundles : list BundleData.t)
    (replies : list BundleData.t) : t * result (list BundleData.t) :=
  match bundles with
  | [] => (self, Ok replies)
  | bundle :: bundles =>
      let '(self, reply) := _handle_bundle self bundle in
      match reply with
      | Raise err => (self, Raise err)
      | Ok None => handle_each self bundles replies
      | Ok (Some reply) => handle_each self bundles (replies ++ [reply])
      end
  end.

(** What one pass of the [while True] body of [_handle_bundles] leaves
    behind: the batches handed to [_send_and_check] and the exceptions
    given to [LOG.exception]. *)
Record cycle : Type := mkCycle {
  broker : t;
  submitted : list (list BundleData.t);
  logged : list exn;
}.

(** One pass of the body of [_handle_bundles], after the sleep.  The agent
    is external: [fetched] is what [_get_new_bundles] does in this pass and
    [send] what [_send_and_check] does with a batch. *)
Definition _handle_bundles (self : t)
    (fetched : result (list BundleData.t))
    (send : list BundleData.t → result unit) : cycle :=
  match fetched with
  | Raise err => mkCycle self [] [err]
  | Ok bundles =>
      if list_bool bundles then
        let '(self, replies) := handle_each self bundles [] in
        match replies with
        | Raise err => mkCycle self [] [err]
        | Ok replies =>
            if list_bool replies then
              match send replies with
              | Raise err => mkCycle self [replies] [err]
              | Ok _ => mkCycle self [replies] []
              end
            else mkCycle self [] []
        end
      else mkCycle self [] []
  end.

(** The broker after it handled the bundles of [history] one after the
    other, whatever each call returned or raised. *)
Definition run (self : t) (history : list BundleData.t) : t :=
  foldl (λ self bundle, (_handle_bundle self bundle).1) self history.

(** Every role has its set of discovered nodes. *)
Definition roles_present (self : t) : Prop :=
  ∀ role : NodeType, is_Some (discovered_nodes self !! (role : number)).

(** The state of a broker with an address of its own: what [__init__]
    sets up for a truthy [node_id] and what the handlers keep. *)
Definition well_formed (self : t) : Prop :=
  EID_bool (node_id self) = true ∧
  node_type self = BROKER ∧
  roles_present self.

End handlers.
End Broker.

(** ** Sample data for the examples *)

Definition eid_a : EID := mkEID "dtn://a/".
Definition eid_b : EID := mkEID "dtn://b/".
Definition eid_x : EID := mkEID "dtn://x/".
Definition eid_y : EID := mkEID "dtn://y/".
Definition eid_none : EID := mkEID "dtn:none".

(** [BundleData(type=ty, source=src, destination=dst)] with every other
    field at its default. *)
Definition bundle_defaults (ty : number) (src dst : EID) : BundleData.t :=
  {| BundleData.type := ty;
     BundleData.source := src;
     BundleData.destination := dst;
     BundleData.payload := [];
     BundleData.success := true;
     BundleData.error := "";
     BundleData.node_type := 0;
     BundleData.submitter := None;
     BundleData.named_data := None |}.

Definition with_outcome (b : BundleData.t) (success : bool) (error : string)
    : BundleData.t :=
  {| BundleData.type := BundleData.type b;
     BundleData.source := BundleData.source b;
     BundleData.destination := BundleData.destination b;
     BundleData.payload := BundleData.payload b;
     BundleData.success := success;
     BundleData.error := error;
     BundleData.node_type := BundleData.node_type b;
     BundleData.submitter := BundleData.submitter b;
     BundleData.named_data := BundleData.named_data b |}.

Definition with_node_type (b : BundleData.t) (node_type : number)
    : BundleData.t :=
  {| BundleData.type := BundleData.type b;
     BundleData.source := BundleData.source b;
     BundleData.destination := BundleData.destination b;
     BundleData.payload := BundleData.payload b;
     BundleData.success := BundleData.success b;
     BundleData.error := BundleData.error b;
     BundleData.node_type := node_type;
     BundleData.submitter := BundleData.submitter b;
     BundleData.named_data := BundleData.named_data b |}.

Definition with_submitter (b : BundleData.t) (submitter : option EID)
    : BundleData.t :=
  {| BundleData.type := BundleData.type b;
     BundleData.source := BundleData.source b;
     BundleData.destination := BundleData.destination b;
     BundleData.payload := BundleData.payload b;
     BundleData.success := BundleData.success b;
     BundleData.error := BundleData.error b;
     BundleData.node_type := BundleData.node_type b;
     BundleData.submitter := submitter;
     BundleData.named_data := BundleData.named_data b |}.

Definition with_named_data (b : BundleData.t) (named_data : option named)
    : BundleData.t :=
  {| BundleData.type := BundleData.type b;
     BundleData.source := BundleData.source b;
     BundleData.destination := BundleData.destination b;
     BundleData.payload := BundleData.payload b;
     BundleData.success := BundleData.success b;
     BundleData.error := BundleData.error b;
     BundleData.node_type := BundleData.node_type b;
     BundleData.submitter := BundleData.submitter b;
     BundleData.named_data := named_data |}.

(** [BundleCreate] of a job bundle whose [named_data] is the empty
    string, and the same with [named_data] at its default. *)
Definition create_empty_name : Message :=
  MBundleCreate
    {| BundleCreate.type := CREATE;
       BundleCreate.bundle :=
         with_named_data (bundle_defaults JOB_SUBMIT eid_a eid_b)
           (Some (Name "")) |}.

Definition create_no_name : Message :=
  MBundleCreate
    {| BundleCreate.type := CREATE;
       BundleCreate.bundle := bundle_defaults JOB_SUBMIT eid_a eid_b |}.

(** [BundleCreate] of a job bundle whose [submitter] is the null endpoint. *)
Definition create_null_submitter : Message :=
  MBundleCreate
    {| BundleCreate.type := CREATE;
       BundleCreate.bundle :=
         with_submitter (bundle_defaults JOB_SUBMIT eid_a eid_b)
           (Some eid_none) |}.

Definition request_from_x : BundleData.t :=
  with_node_type (bundle_defaults BROKER_REQUEST eid_x eid_b) DATASTORE.

Definition announce_from_y : BundleData.t :=
  with_node_type (bundle_defaults BROKER_ANNOUNCE eid_y eid_b) BROKER.

Definition query_from_x : BundleData.t :=
  with_submitter (bundle_defaults JOB_QUERY eid_x eid_b) (Some eid_x).

Definition put_from_x : BundleData.t :=
  with_named_data (bundle_defaults NDATA_PUT eid_x eid_b)
    (Some (Names ["a/b"; "a/c"])).

Definition failed_result : BundleData.t :=
  with_outcome (bundle_defaults JOB_RESULT eid_x eid_b) false "no such job".

(** A [FetchReply] that carries four bundles. *)
Definition fetch_reply_four : Message :=
  MFetchReply
    {| FetchReply.type := FETCH_REPLY;
       FetchReply.success := true;
       FetchReply.error := "";
       FetchReply.bundles :=
         [request_from_x; query_from_x; put_from_x; failed_result] |}.

(** A msgpack that knows one value: it stands for the library on the bytes
    of that value. *)
Definition msgpack_of (v : pyval) : Msgpack :=
  {| packb := λ _, []; unpackb := λ _, Some v |}.

(** Jobs that are a number, dictified as that number. *)
Definition numbered_jobs : Jobs :=
  {| JobInfo := nat;
     dictify_job_infos := λ jobs, PList ((λ n, PInt (Z.of_nat n)) <$> jobs) |}.

(** A msgpack for the examples that never look at the bytes. *)
Definition msgpack_none : Msgpack := msgpack_of PNone.

(** The broker [dtn://b/] and a broker without an address of its own,
    both fresh, over numbered jobs. *)
Definition broker_b : Broker.t (jobs := numbered_jobs) :=
  Broker.init (jobs := numbered_jobs) eid_b.

Definition broker_none : Broker.t (jobs := numbered_jobs) :=
  Broker.init (jobs := numbered_jobs) eid_none.

(** The broker [dtn://b/] with job 7 completed and jobs 3 and 5 queued. *)
Definition broker_busy : Broker.t (jobs := numbered_jobs) :=
  Broker.mk numbered_jobs eid_b BROKER {[ 7%nat ]} [3%nat; 5%nat]
    (Broker.discovered_nodes broker_b).

(** ** What comes back from the wire *)

(** The bundle with every falsy optional field at its default: [dictify]
    writes neither a falsy [submitter] nor a falsy [named_data], and
    [from_dict] reads [None] for a key that is absent. *)
Definition wire_form `{truth : EIDTruth} (b : BundleData.t) : BundleData.t :=
  {| BundleData.type := BundleData.type b;
     BundleData.source := BundleData.source b;
     BundleData.destination := BundleData.destination b;
     BundleData.payload := BundleData.payload b;
     BundleData.success := BundleData.success b;
     BundleData.error := BundleData.error b;
     BundleData.node_type := BundleData.node_type b;
     BundleData.submitter :=
       if BundleData.submitter_bool (BundleData.submitter b)
       then BundleData.submitter b else None;
     BundleData.named_data :=
       if BundleData.named_data_bool (BundleData.named_data b)
       then BundleData.named_data b else None |}.

Definition Message_wire_form `{truth : EIDTruth} (message : Message) : Message :=
  match message with
  | MFetchReply m =>
      MFetchReply
        {| FetchReply.type := FetchReply.type m;
           FetchReply.success := FetchReply.success m;
           FetchReply.error := FetchReply.error m;
           FetchReply.bundles := wire_form <$> FetchReply.bundles m |}
  | MBundleCreate m =>
      MBundleCreate
        {| BundleCreate.type := BundleCreate.type m;
           BundleCreate.bundle := wire_form (BundleCreate.bundle m) |}
  | _ => message
  end.

(** The bundles that a message carries. *)
Definition Message_bundles (message : Message) : list BundleData.t :=
  match message with
  | MFetchReply m => FetchReply.bundles m
  | MBundleCreate m => [BundleCreate.bundle m]
  | _ => []
  end.

(** ** What a bundle asks of the broker *)

(** Adding a node under a role key, whether the key is there or not. *)
Definition add_node (key : number) (eid : EID) (d : gmap number (gset EID))
    : gmap number (gset EID) :=
  alter (λ nodes, {[eid]} ∪ nodes) key d.

Section broker_effects.
Context `{truth : EIDTruth, codec : Msgpack, jobs : Jobs}.

(** The role key and the node that handling [bundle] records: the source
    of an announcement of another broker under [BROKER], the source of a
    request under the node type of the request. *)
Definition recorded (self : Broker.t) (bundle : BundleData.t)
    : option (number * EID) :=
  if BundleData.type bundle =? BROKER_ANNOUNCE then
    if bool_decide (BundleData.source bundle ≠ Broker.node_id self)
    then Some ((BROKER : number), BundleData.source bundle)
    else None
  else if BundleData.type bundle =? BROKER_REQUEST then
    Some (BundleData.node_type bundle, BundleData.source bundle)
  else None.

(** The reply that is due for [bundle]: the job list for a query, the
    acknowledgement for a request, nothing for any other bundle. *)
Definition reply_due (self : Broker.t) (bundle : BundleData.t)
    : option BundleData.t :=
  if BundleData.type bundle =? JOB_QUERY then
    Some {| BundleData.type := JOB_LIST;
            BundleData.source := Broker.node_id self;
            BundleData.destination := BundleData.source bundle;
            BundleData.payload :=
              packb (PDict
                {[ "completed" :=
                     dictify_job_infos (elements (Broker.completed_jobs self));
                   "queued" := dictify_job_infos (Broker.queued_jobs self) ]});
            BundleData.success := true;
            BundleData.error := "";
            BundleData.node_type := 0;
            BundleData.submitter := BundleData.submitter bundle;
            BundleData.named_data := None |}
  else if BundleData.type bundle =? BROKER_REQUEST then
    Some {| BundleData.type := BROKER_ACK;
            BundleData.source := Broker.node_id self;
            BundleData.destination := BundleData.source bundle;
            BundleData.payload := [];
            BundleData.success := true;
            BundleData.error := "";
            BundleData.node_type := BROKER;
            BundleData.submitter := None;
            BundleData.named_data := None |}
  else None.

(** The bundle that [_announce_yourself] builds after each sleep.
    [BROADCAST_ADDRESS] comes from [rec/dtn/eid.py], which is not among the
    sources: it is an argument. *)
Definition announcement (self : Broker.t) (BROADCAST_ADDRESS : EID)
    : result BundleData.t :=
  BundleData.new
    {| BundleData.type := BROKER_ANNOUNCE;
       BundleData.source := Broker.node_id self;
       BundleData.destination := BROADCAST_ADDRESS;
       BundleData.payload := [];
       BundleData.success := true;
       BundleData.error := "";
       BundleData.node_type := BROKER;
       BundleData.submitter := None;
       BundleData.named_data := None |}.

End broker_effects.

(** ** More sample data *)

Definition eid_all : EID := mkEID "dtn://~all/".

(** A job bundle with the empty string as [named_data] and the null
    endpoint as [submitter]. *)
Definition job_with_falsy_fields : BundleData.t :=
  with_submitter
    (with_named_data (bundle_defaults JOB_SUBMIT eid_a eid_b) (Some (Name "")))
    (Some eid_none).

Definition request_from_x_dict : gmap string pyval :=
  {[ "type" := PInt 2; "source" := PStr "dtn://x/";
     "destination" := PStr "dtn://b/"; "node_type" := PInt 3 ]}.

Definition ack_to_x : BundleData.t :=
  with_node_type (bundle_defaults BROKER_ACK eid_b eid_x) BROKER.

Definition submit_from_x : BundleData.t :=
  bundle_defaults JOB_SUBMIT eid_x eid_b.

Definition create_ack_to_x : Message :=
  MBundleCreate
    {| BundleCreate.type := CREATE; BundleCreate.bundle := ack_to_x |}.

(** A request whose [node_type] lies between two roles, and the decoded
    map that [from_dict] reads it from. *)
Definition two_and_a_half : number := number_of_Q (5 # 2).

Definition request_between_roles : BundleData.t :=
  with_node_type (bundle_defaults BROKER_REQUEST eid_x eid_b) two_and_a_half.

Definition request_between_roles_dict : gmap string pyval :=
  {[ "type" := PInt 2; "source" := PStr "dtn://x/";
     "destination" := PStr "dtn://b/";
     "node_type" := PFloat two_and_a_half ]}.

(** A job query that [x] sends for the jobs of the submitter [y]. *)
Definition query_for_y : BundleData.t :=
  with_submitter (bundle_defaults JOB_QUERY eid_x eid_b) (Some eid_y).

(** A request of [y], a datastore as [x] is. *)
Definition request_from_y : BundleData.t :=
  with_node_type (bundle_defaults BROKER_REQUEST eid_y eid_b) DATASTORE.

(** The broker [dtn://b/] after it handled the request of [x]. *)
Definition broker_knows_x : Broker.t (jobs := numbered_jobs) :=
  Broker.run (truth := dtn_none_falsy) (codec := msgpack_none)
    broker_b [request_from_x].

(** A decoded [Fetch] of the null endpoint, and one of the empty text. *)
Definition fetch_none_dict : gmap string pyval :=
  {[ "type" := PInt 3; "endpoint_id" := PStr "dtn:none";
     "node_type" := PInt 4 ]}.

Definition fetch_empty_dict : gmap string pyval :=
  {[ "type" := PInt 3; "endpoint_id" := PStr "";
     "node_type" := PInt 4 ]}.

(** * Properties *)

(** ** Numbers *)

Lemma number_eq (x y : number) : x = y ↔ (this x == this y)%Q.
Proof. split; [by intros ->|apply Qc_is_canon]. Qed.

(** Linear facts about numbers, through the rationals underneath. *)
Ltac num_lra :=
  intros;
  repeat match goal with
         | H : _ ∧ _ |- _ => destruct H
         | H : _ ∨ _ |- _ => destruct H
         end;
  unfold num_le, num_lt, Qcle, Qclt in *;
  repeat match goal with
         | H : @eq number _ _ |- _ => apply number_eq in H
         | H : ¬ @eq number _ _ |- _ => rewrite number_eq in H
         | |- @eq number _ _ => apply number_eq
         | |- ¬ @eq number _ _ => rewrite number_eq
         end;
  cbn [this number_of_Z Qc_of_Z NodeType_value MessageType_value
       BundleType_value] in *;
  unfold inject_Z in *; lra.

(** The comparisons of two numbers that are given. *)
Ltac num_compute :=
  repeat match goal with
         | |- context [num_eqb (number_of_Z ?a) (number_of_Z ?b)] =>
             let v := eval vm_compute in (num_eqb (number_of_Z a) (number_of_Z b)) in
             lazymatch v with
             | true => idtac
             | false => idtac
             end;
             change (num_eqb (number_of_Z a) (number_of_Z b)) with v
         | |- context [num_leb (number_of_Z ?a) (number_of_Z ?b)] =>
             let v := eval vm_compute in (num_leb (number_of_Z a) (number_of_Z b)) in
             lazymatch v with
             | true => idtac
             | false => idtac
             end;
             change (num_leb (number_of_Z a) (number_of_Z b)) with v
         | |- context [num_ltb (number_of_Z ?a) (number_of_Z ?b)] =>
             let v := eval vm_compute in (num_ltb (number_of_Z a) (number_of_Z b)) in
             lazymatch v with
             | true => idtac
             | false => idtac
             end;
             change (num_ltb (number_of_Z a) (number_of_Z b)) with v
         end;
  cbn [andb orb negb].

Lemma num_eqb_spec (x y : number) : reflect (x = y) (x =? y).
Proof. apply bool_decide_reflect. Qed.

Lemma num_leb_spec (x y : number) : reflect (x ≤ y) (x <=? y).
Proof. apply bool_decide_reflect. Qed.

Lemma num_ltb_spec (x y : number) : reflect (x < y) (x <? y).
Proof. apply bool_decide_reflect. Qed.

Lemma num_bool_true (x : number) : num_bool x = true ↔ x ≠ 0.
Proof. unfold num_bool. destruct (num_eqb_spec x 0); simpl; split; congruence. Qed.

Lemma num_bool_false (x : number) : num_bool x = false ↔ x = 0.
Proof. unfold num_bool. destruct (num_eqb_spec x 0); simpl; split; congruence. Qed.

Lemma number_of_Z_inj (a b : Z) : (a : number) = b → a = b.
Proof. apply Z2Qc_inj. Qed.

Lemma number_as_Z_Some (x : number) (z : Z) : number_as_Z x = Some z → x = z.
Proof.
  unfold number_as_Z. destruct x as [[n d] Hx]; cbn.
  destruct d; [done..|]. intros [= ->]. by apply number_eq.
Qed.

(** A number is read back from its plain form. *)
Lemma as_number_pyval (x : number) : as_number (number_pyval x) = Ok x.
Proof.
  unfold number_pyval. destruct (number_as_Z x) as [z|] eqn:Hz; [|done].
  cbn. by rewrite (number_as_Z_Some x z Hz).
Qed.

(** ** Construction of bundles *)

Section bundle_construction.
Context `{truth : EIDTruth}.
Import BundleData.

Lemma str_bool_true s : str_bool s = true ↔ s ≠ "".
Proof.
  unfold str_bool. destruct (String.eqb_spec s ""); simpl; split;
    congruence.
Qed.

Lemma str_bool_false s : str_bool s = false ↔ s = "".
Proof.
  unfold str_bool. destruct (String.eqb_spec s ""); simpl; split;
    congruence.
Qed.

Lemma raise_if_Ok c e : raise_if c e = Ok tt ↔ c = false.
Proof. destruct c; simpl; split; congruence. Qed.

(** Every check of [__post_init__] raises the same exception. *)
Lemma post_init_cases (b : t) :
  post_init b = Ok tt ∨ post_init b = Raise InvalidBundleError.
Proof.
  unfold post_init, raise_if.
  repeat (match goal with
          | |- context [if ?c then _ else _] => destruct c
          end; simpl; auto).
Qed.

Lemma new_valid (b : t) : valid b → new b = Ok b.
Proof. unfold valid, new. by intros ->. Qed.

Lemma new_Ok_inv (b b' : t) : new b = Ok b' → b' = b ∧ valid b.
Proof.
  unfold valid, new. destruct (post_init b) as [[]|]; simpl; [|done].
  by intros [= ->].
Qed.

(** What validity says, check by check. *)
Lemma valid_spec (b : t) :
  valid b ↔
    EID_bool (source b) = true ∧
    EID_bool (destination b) = true ∧
    success b = negb (str_bool (error b)) ∧
    ((BROKER_ANNOUNCE : number) ≤ type b ≤ BROKER_ACK →
       (BROKER : number) ≤ node_type b ≤ CLIENT) ∧
    (type b = JOB_QUERY ∨ type b = JOB_LIST →
       submitter_bool (submitter b) = true) ∧
    ((NDATA_PUT : number) ≤ type b ≤ NDATA_DEL →
       named_data_bool (named_data b) = true).
Proof.
  unfold valid, post_init, raise_if. simpl.
  destruct (EID_bool (source b)), (EID_bool (destination b)),
    (success b), (str_bool (error b)),
    (submitter_bool (submitter b)), (named_data_bool (named_data b));
    simpl;
    repeat match goal with
           | |- context [?x <=? ?y] => destruct (num_leb_spec x y); simpl
           | |- context [?x <? ?y] => destruct (num_ltb_spec x y); simpl
           | |- context [?x =? ?y] => destruct (num_eqb_spec x y); simpl
           end;
    split; try done; try (intros _; repeat split; (done || num_lra));
    intros (? & ? & ? & Hdisc & Hjob & Hdata); try done;
    try (specialize (Hdisc ltac:(split; num_lra)); num_lra);
    try (specialize (Hjob ltac:(auto)); done);
    try (specialize (Hdata ltac:(split; num_lra)); done).
Qed.

End bundle_construction.

(** ** The success flag and the error text (C2) *)

Section success_error.
Context `{truth : EIDTruth}.
Import BundleData.

(** C2.  A bundle that was constructed has [success] true exactly when its
    [error] is the empty string; constructing one with [success] and a
    non-empty [error], or without [success] and with an empty [error],
    raises [InvalidBundleError]. *)
Theorem BundleData_success_iff_no_error (b : t) :
  (∀ b', new b = Ok b' → (success b' = true ↔ error b' = "")) ∧
  (success b = true → error b ≠ "" → new b = Raise InvalidBundleError) ∧
  (success b = false → error b = "" → new b = Raise InvalidBundleError).
Proof.
  split; [|split].
  - intros b' [-> Hv]%new_Ok_inv.
    apply valid_spec in Hv as (_ & _ & -> & _).
    rewrite negb_true_iff. apply str_bool_false.
  - intros Hs He%str_bool_true.
    destruct (post_init_cases b) as [Hv|Hr].
    + apply valid_spec in Hv as (_ & _ & Hse & _).
      rewrite Hs, He in Hse. done.
    + unfold new. by rewrite Hr.
  - intros Hs He%str_bool_false.
    destruct (post_init_cases b) as [Hv|Hr].
    + apply valid_spec in Hv as (_ & _ & Hse & _).
      rewrite Hs, He in Hse. done.
    + unfold new. by rewrite Hr.
Qed.

End success_error.

Lemma BundleData_success_iff_no_error_witness :
  let ok := bundle_defaults JOB_SUBMIT eid_a eid_b in
  (BundleData.success ok = true ↔ BundleData.error ok = "") ∧
  BundleData.new (truth := dtn_none_falsy) (with_outcome ok true "boom")
    = Raise InvalidBundleError ∧
  BundleData.new (truth := dtn_none_falsy) (with_outcome ok false "")
    = Raise InvalidBundleError.
Proof.
  intros ok. split; [|split].
  - apply (proj1 (BundleData_success_iff_no_error (truth := dtn_none_falsy) ok) ok).
    reflexivity.
  - apply (proj1 (proj2 (BundleData_success_iff_no_error _)));
      [reflexivity | discriminate].
  - apply (proj2 (proj2 (BundleData_success_iff_no_error _))); reflexivity.
Defined.

(** ** The dictified form of a bundle (C8) *)

Section dictified_bundle.
Context `{truth : EIDTruth}.
Import BundleData.

Lemma keep_truthy_absent (l : list (string * (bool * pyval))) key :
  key ∉ l.*1 →
  (list_to_map (omap keep_truthy l) : gmap string pyval) !! key = None.
Proof.
  induction l as [|[k [[] v]] l IH]; simpl; [done|..];
    intros [Hne Hk]%not_elem_of_cons.
  - rewrite lookup_insert_ne by done. by apply IH.
  - by apply IH.
Qed.

Lemma keep_truthy_lookup (l : list (string * (bool * pyval))) key :
  NoDup l.*1 →
  (list_to_map (omap keep_truthy l) : gmap string pyval) !! key =
    match (list_to_map l : gmap string (bool * pyval)) !! key with
    | Some (true, value) => Some value
    | _ => None
    end.
Proof.
  induction l as [|[k [keep v]] l IH]; simpl; [done|].
  intros [Hk Hl]%NoDup_cons.
  destruct (decide (k = key)) as [->|Hne].
  - rewrite lookup_insert_eq. destruct keep; simpl.
    + by rewrite lookup_insert_eq.
    + by apply keep_truthy_absent.
  - rewrite lookup_insert_ne by done. destruct keep; simpl.
    + rewrite lookup_insert_ne by done. by apply IH.
    + by apply IH.
Qed.

Lemma items_keys (b : t) : (items b).*1 = BundleDataCodec.fields.
Proof. reflexivity. Qed.

Lemma fields_NoDup : NoDup BundleDataCodec.fields.
Proof. by apply (bool_decide_unpack _). Qed.

Lemma dictify_lookup (b : t) (key : string) :
  dictify b !! key =
    if decide (key = "success") then Some (PBool (success b))
    else match attribute b key with
         | Some (true, value) => Some value
         | _ => None
         end.
Proof.
  unfold dictify, attribute.
  destruct (decide (key = "success")) as [->|Hne].
  - by rewrite lookup_insert_eq.
  - rewrite lookup_insert_ne by done.
    apply (keep_truthy_lookup (items b)).
    rewrite items_keys. apply fields_NoDup.
Qed.

(** The keys of the dictified form, as a set. *)
Corollary dictify_dom (b : t) :
  dom (dictify b) =
    {["success"]} ∪ list_to_set (omap keep_truthy (items b)).*1.
Proof.
  unfold dictify. rewrite dom_insert_L. f_equal.
  apply dom_list_to_map_L.
Qed.

Lemma dictify_keys (b : t) : dom (dictify b) ⊆ list_to_set BundleDataCodec.fields.
Proof.
  intros key [v Hv]%elem_of_dom. rewrite dictify_lookup in Hv.
  destruct (decide (key = "success")) as [->|_]; [set_solver|].
  unfold attribute in Hv.
  destruct (_ !! key) as [[]|] eqn:Hk; [|done].
  apply elem_of_list_to_map_2 in Hk.
  rewrite elem_of_list_to_set, <- (items_keys b).
  by apply (list_elem_of_fmap_2 fst) in Hk.
Qed.

Lemma dictify_type b :
  dictify b !! "type" =
    if num_bool (type b) then Some (number_pyval (type b)) else None.
Proof. by rewrite dictify_lookup. Qed.

Lemma dictify_source b :
  dictify b !! "source" =
    if EID_bool (source b) then Some (PStr (eid_text (source b))) else None.
Proof. by rewrite dictify_lookup. Qed.

Lemma dictify_destination b :
  dictify b !! "destination" =
    if EID_bool (destination b) then Some (PStr (eid_text (destination b)))
    else None.
Proof. by rewrite dictify_lookup. Qed.

Lemma dictify_payload b :
  dictify b !! "payload" =
    if bytes_bool (payload b) then Some (PBytes (payload b)) else None.
Proof. by rewrite dictify_lookup. Qed.

Lemma dictify_success b : dictify b !! "success" = Some (PBool (success b)).
Proof. by rewrite dictify_lookup. Qed.

Lemma dictify_error b :
  dictify b !! "error" = if str_bool (error b) then Some (PStr (error b)) else None.
Proof. by rewrite dictify_lookup. Qed.

Lemma dictify_node_type b :
  dictify b !! "node_type" =
    if num_bool (node_type b) then Some (number_pyval (node_type b)) else None.
Proof. by rewrite dictify_lookup. Qed.

Lemma dictify_submitter b :
  dictify b !! "submitter" =
    if submitter_bool (submitter b)
    then Some (from_option (λ e, PStr (eid_text e)) PNone (submitter b))
    else None.
Proof. by rewrite dictify_lookup. Qed.

Lemma dictify_named_data b :
  dictify b !! "named_data" =
    if named_data_bool (named_data b)
    then Some (from_option named_data_value PNone (named_data b))
    else None.
Proof. by rewrite dictify_lookup. Qed.

(** C8.  The dictified form of a bundle, key by key.  [success] is there
    with the value of the field, true or false.  Each of the eight other
    fields is there, with its value, exactly when that value is truthy: a
    number that is not zero, an EID that is truthy, a [bytes], a [str] or a
    list that is not empty; [None] is falsy.  No other key is there. *)
Theorem dictify_truthy_fields_and_success (b : t) :
  dictify b !! "type" =
    (if decide (type b = 0) then None else Some (number_pyval (type b))) ∧
  dictify b !! "source" =
    (if EID_bool (source b) then Some (PStr (eid_text (source b))) else None) ∧
  dictify b !! "destination" =
    (if EID_bool (destination b)
     then Some (PStr (eid_text (destination b))) else None) ∧
  dictify b !! "payload" =
    match payload b with
    | [] => None
    | _ :: _ => Some (PBytes (payload b))
    end ∧
  dictify b !! "success" = Some (PBool (success b)) ∧
  dictify b !! "error" =
    (if decide (error b = "") then None else Some (PStr (error b))) ∧
  dictify b !! "node_type" =
    (if decide (node_type b = 0) then None
     else Some (number_pyval (node_type b))) ∧
  dictify b !! "submitter" =
    match submitter b with
    | Some e => if EID_bool e then Some (PStr (eid_text e)) else None
    | None => None
    end ∧
  dictify b !! "named_data" =
    match named_data b with
    | Some (Name "") | Some (Names []) | None => None
    | Some (Name s) => Some (PStr s)
    | Some (Names l) => Some (PList (PStr <$> l))
    end ∧
  ∀ key, key ∉ BundleDataCodec.fields → dictify b !! key = None.
Proof.
  rewrite dictify_type, dictify_source, dictify_destination, dictify_payload,
    dictify_success, dictify_error, dictify_node_type, dictify_submitter,
    dictify_named_data.
  repeat split.
  - case_decide as Hty.
    + by apply num_bool_false in Hty as ->.
    + by apply num_bool_true in Hty as ->.
  - by destruct (payload b).
  - case_decide as He.
    + by apply str_bool_false in He as ->.
    + by apply str_bool_true in He as ->.
  - case_decide as Hnt.
    + by apply num_bool_false in Hnt as ->.
    + by apply num_bool_true in Hnt as ->.
  - by destruct (submitter b).
  - by destruct (named_data b) as [[[|]|[|]]|].
  - intros key Hkey. apply not_elem_of_dom. intros Hin%dictify_keys.
    by apply elem_of_list_to_set in Hin.
Qed.

End dictified_bundle.

(** ** The round trip through the wire (C1) *)

Section round_trip.
Context `{truth : EIDTruth}.
Import BundleData.

Lemma mapM_as_str (l : list string) : mapM as_str (PStr <$> l) = Ok l.
Proof. induction l as [|s l IH]; [done|]. cbn. by rewrite IH. Qed.

Lemma read_payload b : field_or (dictify b) "payload" as_bytes [] = Ok (payload b).
Proof. unfold field_or. rewrite dictify_payload. by destruct (payload b). Qed.

Lemma read_success b : field_or (dictify b) "success" as_bool true = Ok (success b).
Proof. unfold field_or. by rewrite dictify_success. Qed.

Lemma read_error b : field_or (dictify b) "error" as_str "" = Ok (error b).
Proof.
  unfold field_or. rewrite dictify_error.
  destruct (str_bool (error b)) eqn:He; [done|].
  apply str_bool_false in He. by rewrite He.
Qed.

Lemma read_node_type b :
  field_or (dictify b) "node_type" as_number 0 = Ok (node_type b).
Proof.
  unfold field_or. rewrite dictify_node_type.
  destruct (num_bool (node_type b)) eqn:He; [apply as_number_pyval|].
  apply num_bool_false in He. by rewrite He.
Qed.

Lemma read_named_data b :
  (is_Some (named_data b) → named_data_bool (named_data b) = true) →
  field_or (dictify b) "named_data" as_named None = Ok (named_data b).
Proof.
  intros Hnd. unfold field_or. rewrite dictify_named_data.
  destruct (named_data b) as [[s|l]|]; [| |done]; rewrite Hnd by done; cbn.
  - done.
  - by rewrite mapM_as_str.
Qed.

Lemma read_submitter b :
  (is_Some (submitter b) → submitter_bool (submitter b) = true) →
  match dictify b !! "submitter" with
  | Some v => Some <$> as_EID v
  | None => Ok None
  end = Ok (submitter b).
Proof.
  intros Hsub. rewrite dictify_submitter.
  destruct (submitter b) as [[e]|]; [|done]. by rewrite Hsub.
Qed.

(** No declared bundle type is zero: [type] is always written. *)
Lemma BundleType_nonzero (ty : number) : is_BundleType ty → ty ≠ 0.
Proof. by intros [[] ->]. Qed.

Lemma bind_Ok {A B} (a : A) (f : A → result B) : Ok a ≫= f = f a.
Proof. done. Qed.

(** A bundle that is written without loss is read back as it was. *)
Lemma from_dict_dictify (b : t) :
  valid b → exact_on_wire b → BundleDataCodec.from_dict (dictify b) = Ok b.
Proof.
  intros Hv (Hty%num_bool_true & Hsub & Hnd).
  pose proof Hv as (Hs & Hd & _)%valid_spec.
  unfold BundleDataCodec.from_dict.
  rewrite read_payload, read_success, read_error, read_node_type,
    read_named_data, read_submitter by done.
  unfold getitem, check_kwargs.
  rewrite bool_decide_eq_true_2 by apply dictify_keys.
  cbn [forallb].
  rewrite dictify_type, dictify_source, dictify_destination, Hty, Hs, Hd.
  cbn [is_Some_dec bool_decide decide_rel andb negb raise_if mbind
       result_bind fmap result_fmap as_EID as_str].
  rewrite as_number_pyval. cbn [mbind result_bind].
  destruct b as [? [?] [?] ? ? ? ? ? ?]. by apply new_valid.
Qed.

(** Reading the plain data of a record: the binds of [from_dict] on values
    that are given. *)
Ltac read_fields :=
  repeat (progress cbn [mbind result_bind fmap result_fmap as_bool as_str
                        as_bytes as_list as_dict]
          || rewrite as_number_pyval).

Lemma Reply_from_dict_dictify m :
  Reply.post_init m = Ok tt → Reply.from_dict (Reply.dictify m) = Ok m.
Proof.
  intros Hv. unfold Reply.from_dict.
  assert (check_kwargs Reply.fields Reply.fields (Reply.dictify m) = Ok tt)
    as -> by by vm_compute.
  assert (getitem (Reply.dictify m) "type"
          = Ok (number_pyval (Reply.type m))) as -> by done.
  assert (getitem (Reply.dictify m) "success" = Ok (PBool (Reply.success m)))
    as -> by done.
  assert (getitem (Reply.dictify m) "error" = Ok (PStr (Reply.error m)))
    as -> by done.
  read_fields. destruct m. cbn [Reply.type Reply.success Reply.error].
  unfold Reply.new. by rewrite Hv.
Qed.

(** The checks of [Register] and of [Fetch], check by check.  An endpoint
    that is truthy as an EID is written as a text that is truthy as a
    [str]. *)
Lemma Register_post_init_spec m :
  Register.post_init m = Ok tt ↔
  Register.type m = REGISTER ∧ EID_bool (Register.endpoint_id m) = true.
Proof.
  unfold Register.post_init, raise_if.
  destruct (num_eqb_spec (Register.type m) REGISTER), (EID_bool _); cbn;
    split; try done; by intros [? ?].
Qed.

Lemma Fetch_post_init_spec m :
  Fetch.post_init m = Ok tt ↔
  Fetch.type m = FETCH ∧ EID_bool (Fetch.endpoint_id m) = true.
Proof.
  unfold Fetch.post_init, raise_if.
  destruct (num_eqb_spec (Fetch.type m) FETCH), (EID_bool _); cbn;
    split; try done; by intros [? ?].
Qed.

Lemma Register_from_dict_dictify m :
  Register.post_init m = Ok tt → Register.from_dict (Register.dictify m) = Ok m.
Proof.
  intros Hv. unfold Register.from_dict.
  assert (check_kwargs Register.fields Register.fields (Register.dictify m)
          = Ok tt) as -> by by vm_compute.
  assert (getitem (Register.dictify m) "type"
          = Ok (number_pyval (Register.type m))) as -> by done.
  assert (getitem (Register.dictify m) "endpoint_id"
          = Ok (PStr (eid_text (Register.endpoint_id m)))) as -> by done.
  read_fields. apply Register_post_init_spec in Hv as [Hty Hep].
  apply EID_bool_text in Hep. destruct m as [ty [text]]. cbn in Hty, Hep.
  cbn [Register.type Register.endpoint_id eid_text].
  rewrite Hep, Hty. by num_compute.
Qed.

Lemma Fetch_from_dict_dictify m :
  Fetch.post_init m = Ok tt → Fetch.from_dict (Fetch.dictify m) = Ok m.
Proof.
  intros Hv. unfold Fetch.from_dict.
  assert (check_kwargs Fetch.fields Fetch.fields (Fetch.dictify m) = Ok tt)
    as -> by by vm_compute.
  assert (getitem (Fetch.dictify m) "type"
          = Ok (number_pyval (Fetch.type m))) as -> by done.
  assert (getitem (Fetch.dictify m) "endpoint_id"
          = Ok (PStr (eid_text (Fetch.endpoint_id m)))) as -> by done.
  assert (getitem (Fetch.dictify m) "node_type"
          = Ok (number_pyval (Fetch.node_type m))) as -> by done.
  read_fields. apply Fetch_post_init_spec in Hv as [Hty Hep].
  apply EID_bool_text in Hep. destruct m as [ty [text] nt]. cbn in Hty, Hep.
  cbn [Fetch.type Fetch.endpoint_id Fetch.node_type eid_text].
  rewrite Hep, Hty. by num_compute.
Qed.

Lemma mapM_from_dict_dictify (bundles : list t) :
  Forall valid bundles → Forall exact_on_wire bundles →
  mapM (λ bundle_data, d ← as_dict bundle_data; BundleDataCodec.from_dict d)
       ((λ b, PDict (dictify b)) <$> bundles) = Ok bundles.
Proof.
  induction 1 as [|b bundles Hb _ IH]; [done|].
  intros [Hw Hws]%Forall_cons. cbn.
  rewrite from_dict_dictify by done. cbn. by rewrite IH.
Qed.

Lemma FetchReply_from_dict_dictify m :
  FetchReply.post_init m = Ok tt →
  Forall valid (FetchReply.bundles m) →
  Forall exact_on_wire (FetchReply.bundles m) →
  FetchReply.from_dict (FetchReply.dictify m) = Ok m.
Proof.
  intros Hv Hbs Hws. unfold FetchReply.from_dict.
  assert (check_kwargs FetchReply.fields FetchReply.fields (FetchReply.dictify m)
          = Ok tt) as -> by by vm_compute.
  assert (getitem (FetchReply.dictify m) "type"
          = Ok (number_pyval (FetchReply.type m))) as -> by done.
  assert (getitem (FetchReply.dictify m) "success"
          = Ok (PBool (FetchReply.success m))) as -> by done.
  assert (getitem (FetchReply.dictify m) "error"
          = Ok (PStr (FetchReply.error m))) as -> by done.
  assert (getitem (FetchReply.dictify m) "bundles"
          = Ok (PList ((λ b, PDict (dictify b)) <$> FetchReply.bundles m)))
    as -> by done.
  cbn [mbind result_bind as_list].
  rewrite mapM_from_dict_dictify by done.
  read_fields. destruct m.
  cbn [FetchReply.type FetchReply.success FetchReply.error FetchReply.bundles].
  unfold FetchReply.new. by rewrite Hv.
Qed.

Lemma BundleCreate_from_dict_dictify m :
  BundleCreate.post_init m = Ok tt →
  valid (BundleCreate.bundle m) →
  exact_on_wire (BundleCreate.bundle m) →
  BundleCreate.from_dict (BundleCreate.dictify m) = Ok m.
Proof.
  intros Hv Hb Hw. unfold BundleCreate.from_dict.
  assert (check_kwargs BundleCreate.fields BundleCreate.fields
            (BundleCreate.dictify m) = Ok tt) as -> by by vm_compute.
  assert (getitem (BundleCreate.dictify m) "type"
          = Ok (number_pyval (BundleCreate.type m))) as -> by done.
  assert (getitem (BundleCreate.dictify m) "bundle"
          = Ok (PDict (dictify (BundleCreate.bundle m)))) as -> by done.
  cbn [mbind result_bind as_dict].
  rewrite from_dict_dictify by done.
  read_fields. destruct m. cbn [BundleCreate.type BundleCreate.bundle].
  unfold BundleCreate.new. by rewrite Hv.
Qed.

Lemma Message_valid_type (message : Message) :
  Message_valid message →
  Message_dictify message !! "type" =
    Some (PInt match message with
               | MReply _ => REPLY
               | MRegister _ => REGISTER
               | MFetch _ => FETCH
               | MFetchReply _ => FETCH_REPLY
               | MBundleCreate _ => CREATE
               end).
Proof.
  destruct message as [m|m|m|m|m]; cbn [Message_valid Message_dictify].
  - unfold Reply.post_init.
    destruct (num_eqb_spec (Reply.type m) REPLY) as [Hty|]; [|done].
    intros _. change (Reply.dictify m !! "type")
      with (Some (number_pyval (Reply.type m))). by rewrite Hty.
  - unfold Register.post_init.
    destruct (num_eqb_spec (Register.type m) REGISTER) as [Hty|]; [|done].
    intros _. change (Register.dictify m !! "type")
      with (Some (number_pyval (Register.type m))). by rewrite Hty.
  - unfold Fetch.post_init.
    destruct (num_eqb_spec (Fetch.type m) FETCH) as [Hty|]; [|done].
    intros _. change (Fetch.dictify m !! "type")
      with (Some (number_pyval (Fetch.type m))). by rewrite Hty.
  - unfold FetchReply.post_init.
    destruct (num_eqb_spec (FetchReply.type m) FETCH_REPLY) as [Hty|];
      [|by intros []].
    intros _. change (FetchReply.dictify m !! "type")
      with (Some (number_pyval (FetchReply.type m))). by rewrite Hty.
  - unfold BundleCreate.post_init.
    destruct (num_eqb_spec (BundleCreate.type m) CREATE) as [Hty|];
      [|by intros []].
    intros _. change (BundleCreate.dictify m !! "type")
      with (Some (number_pyval (BundleCreate.type m))). by rewrite Hty.
Qed.

Context `{codec : Msgpack}.

(** [deserialize] on bytes that unpack to the dictified form of a message. *)
Lemma deserialize_dictified (message : Message) (serialized : list Byte.byte) :
  Message_valid message →
  Message_exact_on_wire message →
  unpackb serialized = Some (PDict (Message_dictify message)) →
  deserialize serialized = Ok message.
Proof.
  intros Hv Hw Hun. unfold deserialize. rewrite Hun. cbn [from_option].
  rewrite bind_Ok. cbn [subscript]. unfold getitem.
  rewrite (Message_valid_type message Hv), bind_Ok. cbn [lookup_number_key].
  rewrite bind_Ok.
  destruct message as [m|m|m|m|m]; cbn in Hv, Hw.
  - change (MESSAGE_CONSTRUCTORS !! _)
      with (Some (λ data, MReply <$> Reply.from_dict data)).
    cbv beta iota delta [Message_dictify].
    by rewrite Reply_from_dict_dictify.
  - change (MESSAGE_CONSTRUCTORS !! _)
      with (Some (λ data, MRegister <$> Register.from_dict data)).
    cbv beta iota delta [Message_dictify].
    by rewrite Register_from_dict_dictify.
  - change (MESSAGE_CONSTRUCTORS !! _)
      with (Some (λ data, MFetch <$> Fetch.from_dict data)).
    cbv beta iota delta [Message_dictify].
    by rewrite Fetch_from_dict_dictify.
  - destruct Hv as [Hv Hbs].
    change (MESSAGE_CONSTRUCTORS !! _)
      with (Some (λ data, MFetchReply <$> FetchReply.from_dict data)).
    cbv beta iota delta [Message_dictify].
    by rewrite FetchReply_from_dict_dictify.
  - destruct Hv as [Hv Hb].
    change (MESSAGE_CONSTRUCTORS !! _)
      with (Some (λ data, MBundleCreate <$> BundleCreate.from_dict data)).
    cbv beta iota delta [Message_dictify].
    by rewrite BundleCreate_from_dict_dictify.
Qed.

(** C1, as amended.  A message that construction accepts, whose nested
    bundles hold [None] or a truthy value in [submitter] and in
    [named_data] (and a non-zero [type]), comes back from
    [deserialize (serialize m)] as it was, whenever msgpack gives back the
    dictified message that it packed. *)
Theorem deserialize_serialize (message : Message) :
  Message_valid message →
  Message_exact_on_wire message →
  unpackb (packb (PDict (Message_dictify message)))
    = Some (PDict (Message_dictify message)) →
  deserialize (serialize message) = Ok message.
Proof. intros Hv Hw Hun. by apply deserialize_dictified. Qed.

End round_trip.

Lemma deserialize_serialize_witness :
  let _ : EIDTruth := dtn_none_falsy in
  let _ : Msgpack := msgpack_of (PDict (Message_dictify fetch_reply_four)) in
  deserialize (serialize fetch_reply_four) = Ok fetch_reply_four.
Proof.
  intros truth codec.
  apply (deserialize_serialize (truth := truth) (codec := codec)).
  - split; [reflexivity|]. repeat constructor.
  - repeat constructor; try discriminate; intros [? [=]].
  - reflexivity.
Defined.

(** C1 as stated fails: a job bundle may hold the empty string in
    [named_data]; [dictify] leaves the falsy field out and [from_dict] puts
    the default [None] in its place, so the message that comes back differs
    from the one that was sent. *)
Lemma deserialize_serialize_empty_name :
  let _ : EIDTruth := dtn_none_falsy in
  let codec := msgpack_of (PDict (Message_dictify create_empty_name)) in
  Message_valid create_empty_name ∧
  unpackb (packb (PDict (Message_dictify create_empty_name)))
    = Some (PDict (Message_dictify create_empty_name)) ∧
  deserialize (serialize create_empty_name) = Ok create_no_name ∧
  deserialize (serialize create_empty_name) ≠ Ok create_empty_name.
Proof.
  intros ? codec. split; [by split|]. split; [done|].
  assert (deserialize (serialize create_empty_name) = Ok create_no_name) as ->.
  { by vm_compute. }
  split; [done|]. intros [=].
Qed.

(** The same happens to a [submitter] that is falsy: the null endpoint is
    not written and [None] comes back. *)
Lemma deserialize_serialize_null_submitter :
  let _ : EIDTruth := dtn_none_falsy in
  let _ : Msgpack := msgpack_of (PDict (Message_dictify create_null_submitter)) in
  Message_valid create_null_submitter ∧
  deserialize (serialize create_null_submitter) = Ok create_no_name.
Proof. intros ? ?. split; [by split|]. by vm_compute. Qed.

(** ** The broker's handlers *)

Section broker.
Context `{truth : EIDTruth, codec : Msgpack, jobs : Jobs}.
Import Broker.

Implicit Types (self : Broker.t) (bundle : BundleData.t).

(** *** What the handlers keep *)

Lemma discover_spec self key eid :
  match discovered_nodes self !! key with
  | Some nodes =>
      discover self key eid =
        (set_discovered_nodes self
           (<[key := {[eid]} ∪ nodes]> (discovered_nodes self)), Ok tt)
  | None => discover self key eid = (self, Raise KeyError)
  end.
Proof. unfold discover. by destruct (_ !! key). Qed.

Lemma discover_dom self key eid :
  dom (discovered_nodes (discover self key eid).1) = dom (discovered_nodes self).
Proof.
  unfold discover. destruct (_ !! key) as [nodes|] eqn:Hk; simpl; [|done].
  rewrite dom_insert_L. apply elem_of_dom_2 in Hk.
  apply subseteq_union_1_L. by apply singleton_subseteq_l.
Qed.

Lemma discover_frame self key eid :
  let self' := (discover self key eid).1 in
  node_id self' = node_id self ∧ node_type self' = node_type self ∧
  completed_jobs self' = completed_jobs self ∧
  queued_jobs self' = queued_jobs self.
Proof. unfold discover. by destruct (_ !! key). Qed.

Lemma _handle_discovery_dom self bundle :
  dom (discovered_nodes (_handle_discovery self bundle).1)
    = dom (discovered_nodes self).
Proof.
  unfold _handle_discovery.
  repeat case_match; simplify_eq/=; try done.
  - match goal with
    | Hd : discover _ ?k ?e = _ |- _ =>
        pose proof (discover_dom self k e) as Hdom; by rewrite Hd in Hdom
    end.
  - match goal with
    | Hd : discover _ ?k ?e = _ |- _ =>
        pose proof (discover_dom self k e) as Hdom; by rewrite Hd in Hdom
    end.
Qed.

Lemma _handle_discovery_frame self bundle :
  let self' := (_handle_discovery self bundle).1 in
  node_id self' = node_id self ∧ node_type self' = node_type self ∧
  completed_jobs self' = completed_jobs self ∧
  queued_jobs self' = queued_jobs self.
Proof.
  unfold _handle_discovery.
  repeat case_match; simplify_eq/=; try done.
  - match goal with
    | Hd : discover _ ?k ?e = _ |- _ =>
        pose proof (discover_frame self k e) as Hfr; by rewrite Hd in Hfr
    end.
  - match goal with
    | Hd : discover _ ?k ?e = _ |- _ =>
        pose proof (discover_frame self k e) as Hfr; by rewrite Hd in Hfr
    end.
Qed.

Lemma _handle_bundle_dom self bundle :
  dom (discovered_nodes (_handle_bundle self bundle).1)
    = dom (discovered_nodes self).
Proof.
  unfold _handle_bundle.
  destruct (BundleData.type bundle =? JOB_QUERY); [done|].
  destruct (_ && _); [apply _handle_discovery_dom | done].
Qed.

Lemma _handle_bundle_frame self bundle :
  let self' := (_handle_bundle self bundle).1 in
  node_id self' = node_id self ∧ node_type self' = node_type self ∧
  completed_jobs self' = completed_jobs self ∧
  queued_jobs self' = queued_jobs self.
Proof.
  unfold _handle_bundle.
  destruct (BundleData.type bundle =? JOB_QUERY); [done|].
  destruct (_ && _); [apply _handle_discovery_frame | done].
Qed.

Lemma run_dom self history :
  dom (discovered_nodes (run self history)) = dom (discovered_nodes self).
Proof.
  revert self. induction history as [|bundle history IH]; intros self; [done|].
  simpl. rewrite IH. apply _handle_bundle_dom.
Qed.

(** The keys that [__init__] creates are the values of the four roles. *)
Lemma init_dom node_id :
  dom (discovered_nodes (init node_id)) =
    {[ (BROKER : number); (EXECUTOR : number); (DATASTORE : number);
       (CLIENT : number) ]}.
Proof. by vm_compute. Qed.

Lemma is_NodeType_keys (x : number) :
  is_NodeType x ↔
  x ∈ ({[ (BROKER : number); (EXECUTOR : number); (DATASTORE : number);
          (CLIENT : number) ]} : gset number).
Proof.
  rewrite !elem_of_union, !elem_of_singleton. unfold is_NodeType. split.
  - intros [[] ->]; auto.
  - intros [[[->| ->]| ->]| ->];
      [by exists BROKER|by exists EXECUTOR|by exists DATASTORE|by exists CLIENT].
Qed.

Lemma roles_present_dom self :
  roles_present self ↔
  {[ (BROKER : number); (EXECUTOR : number); (DATASTORE : number);
     (CLIENT : number) ]} ⊆ dom (discovered_nodes self).
Proof.
  unfold roles_present. split.
  - intros Hr key [role ->]%is_NodeType_keys. apply elem_of_dom, Hr.
  - intros Hd role. apply elem_of_dom, Hd, is_NodeType_keys. by exists role.
Qed.

Lemma init_well_formed node_id :
  EID_bool node_id = true → well_formed (init node_id).
Proof.
  intros Hid. split; [done|]. split; [done|].
  apply roles_present_dom. by rewrite init_dom.
Qed.

Lemma _handle_bundle_well_formed self bundle :
  well_formed self → well_formed (_handle_bundle self bundle).1.
Proof.
  intros (Hid & Hty & Hr).
  destruct (_handle_bundle_frame self bundle) as (Hid' & Hty' & _).
  split; [by rewrite Hid'|]. split; [by rewrite Hty'|].
  apply roles_present_dom. rewrite _handle_bundle_dom.
  by apply roles_present_dom.
Qed.

Lemma run_well_formed self history :
  well_formed self → well_formed (run self history).
Proof.
  revert self. induction history as [|bundle history IH]; intros self; [done|].
  intros Hwf. simpl. by apply IH, _handle_bundle_well_formed.
Qed.

(** The range that construction leaves to the node type of a discovery
    bundle: from [BROKER] to [CLIENT], the numbers in between included. *)
Lemma valid_discovery_node_type bundle :
  BundleData.valid bundle →
  (BROKER_ANNOUNCE : number) ≤ BundleData.type bundle ≤ BROKER_ACK →
  (BROKER : number) ≤ BundleData.node_type bundle ≤ CLIENT.
Proof. intros (_ & _ & _ & Hnt & _)%valid_spec Hty. by apply Hnt. Qed.

(** The bundles that the broker builds: with a truthy source they pass
    construction. *)
Lemma ack_valid (source destination : EID) :
  EID_bool source = true → EID_bool destination = true →
  BundleData.valid
    {| BundleData.type := BROKER_ACK;
       BundleData.source := source;
       BundleData.destination := destination;
       BundleData.payload := [];
       BundleData.success := true;
       BundleData.error := "";
       BundleData.node_type := BROKER;
       BundleData.submitter := None;
       BundleData.named_data := None |}.
Proof.
  intros Hs Hd. apply valid_spec. cbn [BundleData.type BundleData.source
    BundleData.destination BundleData.success BundleData.error
    BundleData.node_type BundleData.submitter BundleData.named_data].
  rewrite Hs, Hd. repeat split; try done; num_lra.
Qed.

Lemma job_list_valid (source destination : EID) (payload : list Byte.byte)
    (submitter : option EID) :
  EID_bool source = true → EID_bool destination = true →
  BundleData.submitter_bool submitter = true →
  BundleData.valid
    {| BundleData.type := JOB_LIST;
       BundleData.source := source;
       BundleData.destination := destination;
       BundleData.payload := payload;
       BundleData.success := true;
       BundleData.error := "";
       BundleData.node_type := 0;
       BundleData.submitter := submitter;
       BundleData.named_data := None |}.
Proof.
  intros Hs Hd Hsub. apply valid_spec. cbn [BundleData.type BundleData.source
    BundleData.destination BundleData.success BundleData.error
    BundleData.node_type BundleData.submitter BundleData.named_data].
  rewrite Hs, Hd. repeat split; try done; num_lra.
Qed.

(** The dispatch of [_handle_bundle] on the three types that are handled. *)
Lemma _handle_bundle_job_query self bundle :
  BundleData.type bundle = JOB_QUERY →
  _handle_bundle self bundle =
    (self, Some <$> (_handle_job_query self bundle).2).
Proof.
  intros Hty. unfold _handle_bundle. rewrite Hty. by num_compute.
Qed.

Lemma _handle_bundle_announce self bundle :
  BundleData.type bundle = BROKER_ANNOUNCE →
  _handle_bundle self bundle = _handle_discovery self bundle.
Proof.
  intros Hty. unfold _handle_bundle. rewrite Hty. by num_compute.
Qed.

Lemma _handle_bundle_request self bundle :
  BundleData.type bundle = BROKER_REQUEST →
  _handle_bundle self bundle = _handle_discovery self bundle.
Proof.
  intros Hty. unfold _handle_bundle. rewrite Hty. by num_compute.
Qed.

(** What [_handle_discovery] does with an announcement and with a request,
    in terms of [discover]. *)
Lemma _handle_discovery_announce self bundle :
  BundleData.type bundle = BROKER_ANNOUNCE →
  _handle_discovery self bundle =
    if decide (BundleData.source bundle = node_id self) then (self, Ok None)
    else ((discover self BROKER (BundleData.source bundle)).1,
          (discover self BROKER (BundleData.source bundle)).2 ;; Ok None).
Proof.
  intros Hty. unfold _handle_discovery. rewrite Hty. num_compute.
  case_decide as Hsrc.
  - by rewrite bool_decide_eq_false_2 by (by intros []).
  - rewrite bool_decide_eq_true_2 by done. by destruct (discover _ _ _).
Qed.

Lemma _handle_discovery_request self bundle :
  BundleData.type bundle = BROKER_REQUEST →
  _handle_discovery self bundle =
    let found :=
      discover self (BundleData.node_type bundle) (BundleData.source bundle) in
    (found.1,
     found.2 ;;
     Some <$> BundleData.new
       {| BundleData.type := BROKER_ACK;
          BundleData.source := node_id self;
          BundleData.destination := BundleData.source bundle;
          BundleData.payload := [];
          BundleData.success := true;
          BundleData.error := "";
          BundleData.node_type := node_type self;
          BundleData.submitter := None;
          BundleData.named_data := None |}).
Proof.
  intros Hty. unfold _handle_discovery. rewrite Hty. num_compute.
  pose proof (discover_frame self (BundleData.node_type bundle)
                (BundleData.source bundle)) as (Hid & Hnt & _).
  destruct (discover _ _ _) as [self' r]. cbn in *. by rewrite Hid, Hnt.
Qed.

End broker.

(** ** Discovery at the broker (C3, C6, C10) *)

Section broker_discovery.
Context `{truth : EIDTruth, codec : Msgpack, jobs : Jobs}.
Import Broker.

Implicit Types (self : Broker.t) (bundle : BundleData.t).

(** What [discover] leaves under every key when the key is there. *)
Lemma discover_found self key eid nodes :
  discovered_nodes self !! key = Some nodes →
  ∃ self',
    discover self key eid = (self', Ok tt) ∧
    discovered_nodes self' !! key = Some ({[eid]} ∪ nodes) ∧
    (∀ key', key' ≠ key →
       discovered_nodes self' !! key' = discovered_nodes self !! key') ∧
    node_id self' = node_id self ∧ node_type self' = node_type self ∧
    completed_jobs self' = completed_jobs self ∧
    queued_jobs self' = queued_jobs self.
Proof.
  intros Hk. unfold discover. rewrite Hk. eexists. split; [done|].
  cbn. split; [by rewrite lookup_insert_eq|]. split; [|done].
  intros key' Hne. by rewrite lookup_insert_ne.
Qed.

(** C3, as amended.  A broker with a truthy EID of its own, the role
    [BROKER] and a set for each of the four roles handles a valid
    [BROKER_REQUEST] whose node type is one of the four roles.  After the
    call the source of the request is in the set of discovered nodes under
    that node type, which is the set of before with the source added; the
    sets under the other keys and the other attributes of the broker are as
    before.  The handler returns one bundle: a [BROKER_ACK] from the
    broker's own EID to the source of the request, with [BROKER] as node
    type. *)
Theorem broker_request_acknowledged self bundle :
  well_formed self →
  BundleData.valid bundle →
  BundleData.type bundle = BROKER_REQUEST →
  is_NodeType (BundleData.node_type bundle) →
  ∃ self' nodes nodes',
    _handle_discovery self bundle =
      (self',
       Ok (Some {| BundleData.type := BROKER_ACK;
                   BundleData.source := node_id self;
                   BundleData.destination := BundleData.source bundle;
                   BundleData.payload := [];
                   BundleData.success := true;
                   BundleData.error := "";
                   BundleData.node_type := BROKER;
                   BundleData.submitter := None;
                   BundleData.named_data := None |})) ∧
    discovered_nodes self !! BundleData.node_type bundle = Some nodes ∧
    discovered_nodes self' !! BundleData.node_type bundle = Some nodes' ∧
    BundleData.source bundle ∈ nodes' ∧
    nodes' = {[BundleData.source bundle]} ∪ nodes ∧
    (∀ key : number, key ≠ BundleData.node_type bundle →
       discovered_nodes self' !! key = discovered_nodes self !! key) ∧
    node_id self' = node_id self ∧ node_type self' = node_type self ∧
    completed_jobs self' = completed_jobs self ∧
    queued_jobs self' = queued_jobs self.
Proof.
  intros (Hid & Hrole & Hroles) Hv Hty [role Hnt].
  destruct (Hroles role) as [nodes Hnodes]. rewrite <- Hnt in Hnodes.
  destruct (discover_found self _ (BundleData.source bundle) _ Hnodes)
    as (self' & Hd & Hnew & Hframe).
  exists self', nodes, ({[BundleData.source bundle]} ∪ nodes).
  split; [|split; [done|]; split; [done|]; split; [|done]].
  - rewrite _handle_discovery_request by done. rewrite Hd. cbn [fst snd].
    rewrite Hrole, bind_Ok. apply valid_spec in Hv as (Hs & _).
    by rewrite new_valid by by apply ack_valid.
  - apply elem_of_union_l. by apply elem_of_singleton.
Qed.

(** C6.  A broker that has its role sets and handles a valid
    [BROKER_ANNOUNCE] returns no reply.  When the source of the
    announcement is not the broker's own EID, the announcer is in the set
    of discovered brokers after the call, which is the set of before with
    the announcer added; when it is the broker's own EID the broker is as
    before.  In both cases the sets under the other keys and the other
    attributes of the broker are as before. *)
Theorem broker_announce_recorded self bundle :
  roles_present self →
  BundleData.valid bundle →
  BundleData.type bundle = BROKER_ANNOUNCE →
  ∃ self' brokers brokers',
    _handle_discovery self bundle = (self', Ok None) ∧
    discovered_nodes self !! (BROKER : number) = Some brokers ∧
    discovered_nodes self' !! (BROKER : number) = Some brokers' ∧
    (BundleData.source bundle ≠ node_id self →
       BundleData.source bundle ∈ brokers' ∧
       brokers' = {[BundleData.source bundle]} ∪ brokers) ∧
    (BundleData.source bundle = node_id self → self' = self) ∧
    (∀ key : number, key ≠ BROKER →
       discovered_nodes self' !! key = discovered_nodes self !! key) ∧
    node_id self' = node_id self ∧ node_type self' = node_type self ∧
    completed_jobs self' = completed_jobs self ∧
    queued_jobs self' = queued_jobs self.
Proof.
  intros Hroles _ Hty.
  destruct (Hroles BROKER) as [brokers Hbrokers].
  rewrite _handle_discovery_announce by done.
  case_decide as Hsrc.
  - exists self, brokers, brokers. split; [done|]. split; [done|].
    split; [done|]. split; [by intros []|]. by repeat split.
  - destruct (discover_found self _ (BundleData.source bundle) _ Hbrokers)
      as (self' & Hd & Hnew & Hother & Hframe).
    exists self', brokers, ({[BundleData.source bundle]} ∪ brokers).
    rewrite Hd. split; [done|]. split; [done|]. split; [done|].
    split; [|split; [by intros ?|by split]].
    intros _. split; [|done]. apply elem_of_union_l. by apply elem_of_singleton.
Qed.

(** C10, where the code departs from it.  The check of [__post_init__] on
    a bundle of a discovery type leaves every number from 1 to 4 as node
    type, not only the four values of [NodeType].  A broker has a set of
    discovered nodes for exactly these four values, when it is new and
    after any bundles it handled.  So the lookup under the node type of a
    bundle that passed construction finds a set exactly when the node type
    is one of the four values; for a valid [BROKER_REQUEST] with another
    node type of the range the handler raises [KeyError]: the broker stays
    as it was and no reply is built. *)
Theorem discovery_node_type_not_a_key (node_id : EID)
    (history : list BundleData.t) bundle :
  BundleData.valid bundle →
  (BROKER_ANNOUNCE : number) ≤ BundleData.type bundle ≤ BROKER_ACK →
  let self := run (init node_id) history in
  (BROKER : number) ≤ BundleData.node_type bundle ≤ CLIENT ∧
  dom (discovered_nodes self) =
    {[ (BROKER : number); (EXECUTOR : number); (DATASTORE : number);
       (CLIENT : number) ]} ∧
  (is_Some (discovered_nodes self !! BundleData.node_type bundle) ↔
     is_NodeType (BundleData.node_type bundle)) ∧
  (BundleData.type bundle = BROKER_REQUEST →
   ¬ is_NodeType (BundleData.node_type bundle) →
   _handle_bundle self bundle = (self, Raise KeyError)).
Proof.
  intros Hv Hty self.
  assert (dom (discovered_nodes self) =
            {[ (BROKER : number); (EXECUTOR : number); (DATASTORE : number);
               (CLIENT : number) ]}) as Hdom.
  { unfold self. by rewrite run_dom, init_dom. }
  assert (is_Some (discovered_nodes self !! BundleData.node_type bundle) ↔
            is_NodeType (BundleData.node_type bundle)) as Hkey.
  { by rewrite <- elem_of_dom, Hdom, is_NodeType_keys. }
  split; [by apply valid_discovery_node_type|]. split; [done|].
  split; [done|]. intros Hreq Hno.
  rewrite _handle_bundle_request, _handle_discovery_request by done.
  unfold discover.
  destruct (discovered_nodes self !! BundleData.node_type bundle) eqn:Hl;
    [|done].
  destruct Hno. by apply Hkey.
Qed.

End broker_discovery.

Lemma broker_request_acknowledged_witness :
  ∃ self' nodes nodes',
    Broker._handle_discovery (truth := dtn_none_falsy) broker_b request_from_x =
      (self', Ok (Some ack_to_x)) ∧
    Broker.discovered_nodes broker_b !! (DATASTORE : number) = Some nodes ∧
    Broker.discovered_nodes self' !! (DATASTORE : number) = Some nodes' ∧
    eid_x ∈ nodes' ∧
    nodes' = {[eid_x]} ∪ nodes ∧
    (∀ key : number, key ≠ DATASTORE →
       Broker.discovered_nodes self' !! key
         = Broker.discovered_nodes broker_b !! key) ∧
    Broker.node_id self' = eid_b ∧ Broker.node_type self' = BROKER ∧
    Broker.completed_jobs self' = ∅ ∧ Broker.queued_jobs self' = [].
Proof.
  apply (broker_request_acknowledged (truth := dtn_none_falsy)
           broker_b request_from_x).
  - by apply init_well_formed.
  - reflexivity.
  - reflexivity.
  - by exists DATASTORE.
Defined.

(** C3 as stated fails.  The broker [dtn:none] records the source of a
    valid request and then cannot build the acknowledgement, whose source
    would be falsy: the handler raises and there is no reply.  It fails too
    for a request whose node type lies between two roles: there is no set
    under 2.5, the handler raises [KeyError] and nothing is recorded. *)
Lemma broker_request_not_acknowledged :
  let _ : EIDTruth := dtn_none_falsy in
  let _ : Msgpack := msgpack_none in
  BundleData.valid request_from_x ∧
  BundleData.type request_from_x = BROKER_REQUEST ∧
  (Broker._handle_discovery broker_none request_from_x).2
    = Raise InvalidBundleError ∧
  BundleData.valid request_between_roles ∧
  BundleData.type request_between_roles = BROKER_REQUEST ∧
  Broker._handle_discovery broker_b request_between_roles
    = (broker_b, Raise KeyError).
Proof. intros ? ?. repeat split; by vm_compute. Qed.

Lemma broker_announce_recorded_witness :
  ∃ self' brokers brokers',
    Broker._handle_discovery (truth := dtn_none_falsy) broker_b announce_from_y
      = (self', Ok None) ∧
    Broker.discovered_nodes broker_b !! (BROKER : number) = Some brokers ∧
    Broker.discovered_nodes self' !! (BROKER : number) = Some brokers' ∧
    (eid_y ≠ eid_b → eid_y ∈ brokers' ∧ brokers' = {[eid_y]} ∪ brokers) ∧
    (eid_y = eid_b → self' = broker_b) ∧
    (∀ key : number, key ≠ BROKER →
       Broker.discovered_nodes self' !! key
         = Broker.discovered_nodes broker_b !! key) ∧
    Broker.node_id self' = eid_b ∧ Broker.node_type self' = BROKER ∧
    Broker.completed_jobs self' = ∅ ∧ Broker.queued_jobs self' = [].
Proof.
  apply (broker_announce_recorded (truth := dtn_none_falsy)
           broker_b announce_from_y).
  - by apply (init_well_formed (truth := dtn_none_falsy)).
  - reflexivity.
  - reflexivity.
Defined.

Lemma discovery_node_type_not_a_key_witness :
  let _ : EIDTruth := dtn_none_falsy in
  let _ : Msgpack := msgpack_none in
  let self := Broker.run broker_b [announce_from_y; request_from_x] in
  BundleDataCodec.from_dict request_between_roles_dict
    = Ok request_between_roles ∧
  BundleData.valid request_between_roles ∧
  ¬ is_NodeType two_and_a_half ∧
  Broker._handle_bundle self request_between_roles = (self, Raise KeyError).
Proof.
  intros truth codec self.
  assert (¬ is_NodeType two_and_a_half) as Hno.
  { intros [[] Heq]; apply number_eq in Heq; by vm_compute in Heq. }
  split; [by vm_compute|]. split; [reflexivity|]. split; [exact Hno|].
  apply (discovery_node_type_not_a_key (truth := truth) (codec := codec)
           eid_b [announce_from_y; request_from_x] request_between_roles).
  - reflexivity.
  - split; by apply (bool_decide_unpack _).
  - reflexivity.
  - exact Hno.
Defined.

(** ** Job queries (C5, C9) *)

Section broker_job_query.
Context `{truth : EIDTruth, codec : Msgpack, jobs : Jobs}.
Import Broker.

Implicit Types (self : Broker.t) (bundle : BundleData.t).

(** C5, as amended.  A broker with a truthy EID of its own that receives a
    valid [JOB_QUERY] returns one bundle: a [JOB_LIST] whose payload packs
    the map of [completed] and [queued] to the dictified job descriptions
    that the broker holds.  The reply is sent from the broker to the source
    of the query, the node that sent it; the submitter of the query is
    copied into the submitter field of the reply. *)
Theorem job_query_answered self bundle :
  EID_bool (node_id self) = true →
  BundleData.valid bundle →
  BundleData.type bundle = JOB_QUERY →
  _handle_bundle self bundle =
    (self,
     Ok (Some
       {| BundleData.type := JOB_LIST;
          BundleData.source := node_id self;
          BundleData.destination := BundleData.source bundle;
          BundleData.payload :=
            packb (PDict
              {[ "completed" := dictify_job_infos (elements (completed_jobs self));
                 "queued" := dictify_job_infos (queued_jobs self) ]});
          BundleData.success := true;
          BundleData.error := "";
          BundleData.node_type := 0;
          BundleData.submitter := BundleData.submitter bundle;
          BundleData.named_data := None |})).
Proof.
  intros Hid Hv Hty.
  rewrite _handle_bundle_job_query by done. f_equal.
  unfold _handle_job_query. cbn [snd].
  apply valid_spec in Hv as (Hs & _ & _ & _ & Hsub & _).
  rewrite new_valid; [done|].
  apply job_list_valid; [done..|]. apply Hsub. by left.
Qed.

(** C9.  Handling a valid [JOB_QUERY] leaves the broker as it was: the
    completed jobs, the queued jobs and the discovered nodes after the
    handler are those before it. *)
Theorem job_query_read_only self bundle :
  BundleData.valid bundle →
  BundleData.type bundle = JOB_QUERY →
  let self' := (_handle_bundle self bundle).1 in
  (_handle_job_query self bundle).1 = self ∧
  completed_jobs self' = completed_jobs self ∧
  queued_jobs self' = queued_jobs self ∧
  discovered_nodes self' = discovered_nodes self.
Proof.
  intros _ Hty self'. subst self'.
  by rewrite _handle_bundle_job_query.
Qed.

End broker_job_query.

Lemma job_query_answered_witness :
  let _ : EIDTruth := dtn_none_falsy in
  let _ : Msgpack := msgpack_none in
  Broker._handle_bundle broker_busy query_from_x =
    (broker_busy,
     Ok (Some
       {| BundleData.type := JOB_LIST;
          BundleData.source := eid_b;
          BundleData.destination := eid_x;
          BundleData.payload :=
            packb (PDict
              {[ "completed" := PList [PInt 7];
                 "queued" := PList [PInt 3; PInt 5] ]});
          BundleData.success := true;
          BundleData.error := "";
          BundleData.node_type := 0;
          BundleData.submitter := Some eid_x;
          BundleData.named_data := None |})).
Proof.
  intros truth codec.
  apply (job_query_answered (truth := truth) (codec := codec)
           broker_busy query_from_x); reflexivity.
Defined.

(** C5 as stated fails.  The node [x] asks for the jobs of the submitter
    [y]: the query is valid, and the job list goes to [x], the source of the
    query, not to [y], the submitter; [y] is named in the submitter field
    of the reply only.  And the broker [dtn:none] cannot build the job
    list at all: the handler raises. *)
Lemma job_query_reply_goes_to_source :
  let _ : EIDTruth := dtn_none_falsy in
  let _ : Msgpack := msgpack_none in
  BundleData.valid query_for_y ∧
  BundleData.type query_for_y = JOB_QUERY ∧
  BundleData.source query_for_y = eid_x ∧
  BundleData.submitter query_for_y = Some eid_y ∧
  (∃ reply,
     Broker._handle_bundle broker_busy query_for_y
       = (broker_busy, Ok (Some reply)) ∧
     BundleData.type reply = JOB_LIST ∧
     BundleData.destination reply = eid_x ∧
     BundleData.destination reply ≠ eid_y ∧
     BundleData.submitter reply = Some eid_y) ∧
  Broker._handle_bundle broker_none query_for_y
    = (broker_none, Raise InvalidBundleError).
Proof.
  intros ? ?. do 4 (split; [by vm_compute|]). split; [|by vm_compute].
  eexists. split; [by vm_compute|]. by repeat split.
Qed.

Lemma job_query_read_only_witness :
  let _ : EIDTruth := dtn_none_falsy in
  let _ : Msgpack := msgpack_none in
  let self' := (Broker._handle_bundle broker_busy query_from_x).1 in
  (Broker._handle_job_query broker_busy query_from_x).1 = broker_busy ∧
  Broker.completed_jobs self' = Broker.completed_jobs broker_busy ∧
  Broker.queued_jobs self' = Broker.queued_jobs broker_busy ∧
  Broker.discovered_nodes self' = Broker.discovered_nodes broker_busy.
Proof.
  intros truth codec.
  apply (job_query_read_only (truth := truth) (codec := codec)
           broker_busy query_from_x); reflexivity.
Defined.

(** ** One pass of the bundle handler (C4) *)

Section bundle_intake.
Context `{truth : EIDTruth, codec : Msgpack, jobs : Jobs}.
Import Broker.

Implicit Types (self : Broker.t) (bundle : BundleData.t).

Lemma handle_each_app self (before after : list BundleData.t) replies :
  handle_each self (before ++ after) replies =
    match handle_each self before replies with
    | (self', Ok replies') => handle_each self' after replies'
    | (self', Raise err) => (self', Raise err)
    end.
Proof.
  revert self replies.
  induction before as [|bundle before IH]; intros self replies; [done|].
  simpl. destruct (_handle_bundle self bundle) as [self' [[reply|]|err]];
    [apply IH | apply IH | done].
Qed.

(** The loop ends where the first exception is raised: the broker is the
    one that the raising call left, and the bundles behind are not looked
    at. *)
Lemma handle_each_raise self (before after : list BundleData.t) bundle
    self1 replies self2 err :
  handle_each self before [] = (self1, Ok replies) →
  _handle_bundle self1 bundle = (self2, Raise err) →
  handle_each self (before ++ bundle :: after) [] = (self2, Raise err).
Proof.
  intros Hbefore Hbundle. rewrite handle_each_app, Hbefore.
  simpl. by rewrite Hbundle.
Qed.

(** Without an exception the broker is the one after every bundle. *)
Lemma handle_each_run self (bundles : list BundleData.t) acc self' replies :
  handle_each self bundles acc = (self', Ok replies) →
  self' = run self bundles.
Proof.
  revert self acc. induction bundles as [|bundle bundles IH]; intros self acc.
  - by intros [= ->].
  - simpl. destruct (_handle_bundle self bundle) as [self1 [[reply|]|err]];
      simpl; [apply IH | apply IH | done].
Qed.

(** C4, as amended.  When the handling of a bundle of the batch raises, the
    exception is caught around the whole pass and logged once: the bundles
    before it have been handled, the bundles after it are not handled in
    this pass, and nothing is submitted, whatever replies the bundles
    before it produced. *)
Theorem handle_bundles_stops_at_error self
    (before after : list BundleData.t) bundle self1 replies self2 err
    (send : list BundleData.t → result unit) :
  handle_each self before [] = (self1, Ok replies) →
  _handle_bundle self1 bundle = (self2, Raise err) →
  _handle_bundles self (Ok (before ++ bundle :: after)) send =
    mkCycle self2 [] [err].
Proof.
  intros Hbefore Hbundle. unfold _handle_bundles.
  rewrite (handle_each_raise _ _ _ _ _ _ _ _ Hbefore Hbundle).
  by destruct before.
Qed.

(** When no bundle raises, every bundle is handled and the replies are
    handed to the agent as one batch. *)
Lemma handle_bundles_all self (bundles : list BundleData.t) self' replies
    (send : list BundleData.t → result unit) :
  handle_each self bundles [] = (self', Ok replies) →
  replies ≠ [] →
  broker (_handle_bundles self (Ok bundles) send) = run self bundles ∧
  submitted (_handle_bundles self (Ok bundles) send) = [replies].
Proof.
  intros Hall Hreplies. unfold _handle_bundles.
  destruct bundles as [|bundle bundles]; [by simplify_eq/=|].
  cbn [list_bool]. rewrite Hall.
  apply handle_each_run in Hall as ->.
  destruct replies; [done|]. cbn [list_bool].
  by destruct (send _).
Qed.

End bundle_intake.

Lemma handle_bundles_stops_at_error_witness :
  Broker._handle_bundles (truth := dtn_none_falsy) (codec := msgpack_none)
      broker_none (Ok ([announce_from_y] ++ request_from_x :: [announce_from_y]))
      (λ _, Ok tt) =
    Broker.mkCycle
      (Broker.run (truth := dtn_none_falsy) (codec := msgpack_none)
         broker_none [announce_from_y; request_from_x])
      [] [InvalidBundleError].
Proof.
  apply (handle_bundles_stops_at_error (truth := dtn_none_falsy)
           (codec := msgpack_none) broker_none
           [announce_from_y] [announce_from_y] request_from_x
           (Broker.run (truth := dtn_none_falsy) (codec := msgpack_none)
              broker_none [announce_from_y]) []);
    reflexivity.
Defined.

(** C4 as stated fails.  The broker [dtn:none] cannot build a reply: every
    bundle needs a truthy source.  In the batch of a request from [x] and an
    announcement from [y], the request raises; the pass logs the exception
    and ends, so [y] is not among the discovered brokers, where handling its
    announcement puts it. *)
Lemma handle_bundles_drops_rest_of_batch :
  let _ : EIDTruth := dtn_none_falsy in
  let _ : Msgpack := msgpack_none in
  let pass :=
    Broker._handle_bundles broker_none
      (Ok [request_from_x; announce_from_y]) (λ _, Ok tt) in
  BundleData.valid request_from_x ∧
  BundleData.valid announce_from_y ∧
  (Broker._handle_bundle broker_none request_from_x).2
    = Raise InvalidBundleError ∧
  Broker.logged pass = [InvalidBundleError] ∧
  Broker.submitted pass = [] ∧
  Broker.discovered_nodes (Broker.broker pass) !! (BROKER : number) = Some ∅ ∧
  Broker.discovered_nodes
      (Broker._handle_bundle (Broker.broker pass) announce_from_y).1
    !! (BROKER : number) = Some {[eid_y]}.
Proof. intros ? ? pass. repeat split; by vm_compute. Qed.

(** ** Unknown message types (C7) *)

Section unknown_type.
Context `{truth : EIDTruth, codec : Msgpack}.

Lemma is_MessageType_keys (x : number) :
  is_MessageType x ↔
  x ∈ ({[ (REPLY : number); (REGISTER : number); (FETCH : number);
          (FETCH_REPLY : number); (CREATE : number) ]} : gset number).
Proof.
  rewrite !elem_of_union, !elem_of_singleton. unfold is_MessageType. split.
  - intros [[] ->]; auto.
  - intros [[[[->| ->]| ->]| ->]| ->];
      [by exists REPLY|by exists REGISTER|by exists FETCH
      |by exists FETCH_REPLY|by exists CREATE].
Qed.

Lemma MESSAGE_CONSTRUCTORS_lookup (x : number) :
  is_Some (MESSAGE_CONSTRUCTORS !! x) ↔ is_MessageType x.
Proof.
  rewrite <- elem_of_dom, is_MessageType_keys.
  assert (dom MESSAGE_CONSTRUCTORS =
            {[ (REPLY : number); (REGISTER : number); (FETCH : number);
               (FETCH_REPLY : number); (CREATE : number) ]})
    as -> by by vm_compute.
  done.
Qed.

(** X13.  When the decoded map carries a hashable type tag that equals no
     member of [MessageType], [deserialize] raises [InvalidMessageError]. *)
Theorem deserialize_unknown_tag (serialized : list Byte.byte)
    (data : gmap string pyval) (tag : pyval) :
  unpackb serialized = Some (PDict data) →
  data !! "type" = Some tag →
  hashable tag →
  ¬ names_MessageType tag →
  deserialize serialized = Raise InvalidMessageError.
Proof.
  intros Hun Htag Hhash Hno. unfold deserialize.
  rewrite Hun. cbn [from_option]. rewrite bind_Ok. cbn [subscript].
  unfold getitem. rewrite Htag, bind_Ok.
  destruct tag as [|b|z|x|s|bs|l|d];
    cbn [hashable names_MessageType] in Hhash, Hno; try done;
    cbn [lookup_number_key]; rewrite bind_Ok; try done.
  - destruct b; [done|].
    destruct (MESSAGE_CONSTRUCTORS !! (Z.b2z false : number)) eqn:Hl; [|done].
    apply mk_is_Some, MESSAGE_CONSTRUCTORS_lookup in Hl as [[] Heq];
      by apply number_of_Z_inj in Heq.
  - destruct (MESSAGE_CONSTRUCTORS !! (z : number)) eqn:Hl; [|done].
    by apply mk_is_Some, MESSAGE_CONSTRUCTORS_lookup in Hl.
  - destruct (MESSAGE_CONSTRUCTORS !! x) eqn:Hl; [|done].
    by apply mk_is_Some, MESSAGE_CONSTRUCTORS_lookup in Hl.
Qed.

(** C7, where the code departs from it.  When the decoded map carries a
    list as type tag, the membership test of [deserialize] hashes the tag
    and raises [TypeError]: no message is produced, but the exception is not
    [InvalidMessageError]. *)
Theorem deserialize_list_tag (serialized : list Byte.byte)
    (data : gmap string pyval) (items : list pyval) :
  unpackb serialized = Some (PDict data) →
  data !! "type" = Some (PList items) →
  deserialize serialized = Raise TypeError.
Proof.
  intros Hun Htag. unfold deserialize.
  rewrite Hun. cbn [from_option]. rewrite bind_Ok. cbn [subscript].
  unfold getitem. by rewrite Htag, bind_Ok.
Qed.

End unknown_type.

Lemma deserialize_list_tag_witness :
  deserialize (truth := dtn_none_falsy)
    (codec := msgpack_of (PDict {[ "type" := PList [] ]})) []
  = Raise TypeError.
Proof.
  apply (deserialize_list_tag (truth := dtn_none_falsy)
           (codec := msgpack_of (PDict {[ "type" := PList [] ]}))
           [] {[ "type" := PList [] ]} []); reflexivity.
Defined.

Lemma deserialize_unknown_tag_witness :
  deserialize (truth := dtn_none_falsy)
    (codec := msgpack_of (PDict {[ "type" := PInt 6 ]})) []
  = Raise InvalidMessageError.
Proof.
  apply (deserialize_unknown_tag (truth := dtn_none_falsy)
           (codec := msgpack_of (PDict {[ "type" := PInt 6 ]}))
           [] {[ "type" := PInt 6 ]} (PInt 6)); try done.
  intros [[] Heq]; by apply number_of_Z_inj in Heq.
Defined.

(** * Further properties of the protocol and of the broker *)

Section wire.
Context `{truth : EIDTruth}.
Import BundleData.

Lemma bind_Ok_inv {A B} (m : result A) (f : A → result B) (b : B) :
  m ≫= f = Ok b → ∃ a, m = Ok a ∧ f a = Ok b.
Proof. destruct m as [a|e]; [by exists a|done]. Qed.

Lemma fmap_Ok_inv {A B} (f : A → B) (m : result A) (b : B) :
  f <$> m = Ok b → ∃ a, m = Ok a ∧ b = f a.
Proof. destruct m as [a|e]; [|done]. intros [= <-]. by exists a. Qed.

Lemma submitter_bool_wire (b : t) :
  submitter_bool (submitter (wire_form b)) = submitter_bool (submitter b).
Proof. cbn. by destruct (submitter_bool (submitter b)) eqn:Hs. Qed.

Lemma named_data_bool_wire (b : t) :
  named_data_bool (named_data (wire_form b)) = named_data_bool (named_data b).
Proof. cbn. by destruct (named_data_bool (named_data b)) eqn:Hs. Qed.

Lemma wire_form_valid (b : t) : valid b → valid (wire_form b).
Proof.
  rewrite !valid_spec, submitter_bool_wire, named_data_bool_wire. done.
Qed.

Lemma wire_form_truthy (b : t) :
  (is_Some (submitter (wire_form b)) →
     submitter_bool (submitter (wire_form b)) = true) ∧
  (is_Some (named_data (wire_form b)) →
     named_data_bool (named_data (wire_form b)) = true).
Proof.
  rewrite submitter_bool_wire, named_data_bool_wire. cbn. split.
  - destruct (submitter_bool (submitter b)); [done|]. by intros [? [=]].
  - destruct (named_data_bool (named_data b)); [done|]. by intros [? [=]].
Qed.

Lemma wire_form_exact (b : t) : type b ≠ 0 → exact_on_wire (wire_form b).
Proof. intros Hty. split; [done|]. apply wire_form_truthy. Qed.

Lemma wire_form_fixed (b : t) :
  (is_Some (submitter b) → submitter_bool (submitter b) = true) →
  (is_Some (named_data b) → named_data_bool (named_data b) = true) →
  wire_form b = b.
Proof.
  intros Hs Hn. destruct b as [ty src dst pl su er nt sub nd].
  unfold wire_form. cbn in *. f_equal.
  - destruct sub; [by rewrite Hs|done].
  - destruct nd; [by rewrite Hn|done].
Qed.

Lemma dictify_wire_form (b : t) : dictify (wire_form b) = dictify b.
Proof.
  apply map_eq. intros key. rewrite !dictify_lookup.
  destruct (decide (key = "success")); [done|].
  unfold attribute, items.
  rewrite submitter_bool_wire, named_data_bool_wire.
  cbn [wire_form type source destination payload success error node_type
       submitter named_data].
  destruct (submitter_bool (submitter b)), (named_data_bool (named_data b));
    [done|..]; cbn [list_to_map foldr fst snd];
    rewrite !(lookup_insert _ _ key); repeat case_decide; done.
Qed.

(** X7.  Reading the dictified form of a valid bundle of non-zero type gives
    the bundle with every falsy [submitter] or [named_data] replaced by
    [None], and every other field as it was. *)
Theorem BundleData_from_dict_dictify (b : t) :
  valid b → type b ≠ 0 →
  BundleDataCodec.from_dict (dictify b) = Ok (wire_form b).
Proof.
  intros Hv Hty. rewrite <- dictify_wire_form.
  apply from_dict_dictify; [by apply wire_form_valid | by apply wire_form_exact].
Qed.

Lemma wire_form_idemp (b : t) : wire_form (wire_form b) = wire_form b.
Proof. apply wire_form_fixed; apply wire_form_truthy. Qed.

(** [from_dict] ends in the constructor: what it returns passed
    [__post_init__]. *)
Lemma from_dict_valid (data : gmap string pyval) (b : t) :
  BundleDataCodec.from_dict data = Ok b → valid b.
Proof.
  unfold BundleDataCodec.from_dict. intros H.
  do 13 (apply bind_Ok_inv in H as (? & _ & H)).
  by apply new_Ok_inv in H as [-> ?].
Qed.

End wire.

Section wire_form_properties.
Context `{truth : EIDTruth}.

(** X8.  A bundle and its wire form have the same dictified form, and the
    wire form of a wire form is itself: what the falsy optional fields
    held is what the wire does not tell. *)
Theorem wire_form_stable (b : BundleData.t) :
  BundleData.dictify (wire_form b) = BundleData.dictify b ∧
  wire_form (wire_form b) = wire_form b.
Proof. split; [apply dictify_wire_form | apply wire_form_idemp]. Qed.

End wire_form_properties.

Section messages_on_wire.
Context `{truth : EIDTruth}.

Lemma Message_dictify_wire_form (message : Message) :
  Message_dictify (Message_wire_form message) = Message_dictify message.
Proof.
  destruct message as [m|m|m|m|m]; try done;
    unfold Message_dictify, Message_wire_form.
  - unfold FetchReply.dictify.
    cbn [FetchReply.type FetchReply.success FetchReply.error
         FetchReply.bundles].
    do 2 f_equal. rewrite <- list_fmap_compose. apply list_fmap_ext.
    intros i b _. cbn. by rewrite dictify_wire_form.
  - unfold BundleCreate.dictify.
    cbn [BundleCreate.type BundleCreate.bundle]. by rewrite dictify_wire_form.
Qed.

Lemma Message_wire_form_valid (message : Message) :
  Message_valid message → Message_valid (Message_wire_form message).
Proof.
  destruct message as [m|m|m|m|m]; try done; cbn.
  - intros [Hm Hbs]. split; [done|].
    apply Forall_fmap. eapply Forall_impl; [done|].
    intros b. apply wire_form_valid.
  - intros [Hm Hb]. split; [done|]. by apply wire_form_valid.
Qed.

Lemma Message_wire_form_exact (message : Message) :
  Forall (λ b, BundleData.type b ≠ 0) (Message_bundles message) →
  Message_exact_on_wire (Message_wire_form message).
Proof.
  destruct message as [m|m|m|m|m]; try done; cbn.
  - intros Hbs. apply Forall_fmap. eapply Forall_impl; [done|].
    intros b. apply wire_form_exact.
  - intros [Hb _]%Forall_cons. by apply wire_form_exact.
Qed.

Lemma Message_wire_form_fixed (message : Message) :
  Message_exact_on_wire message → Message_wire_form message = message.
Proof.
  destruct message as [m|m|m|m|m]; try done; cbn.
  - intros Hbs. destruct m as [ty su er bs]. cbn in *. do 2 f_equal.
    induction Hbs as [|b bs (_ & Hs & Hn) _ IH]; [done|].
    cbn. by rewrite wire_form_fixed, IH.
  - intros (_ & Hs & Hn). destruct m as [ty b]. cbn in *.
    by rewrite wire_form_fixed.
Qed.

Context `{codec : Msgpack}.

Lemma deserialize_dictified_normal (message : Message)
    (serialized : list Byte.byte) :
  Message_valid message →
  Forall (λ b, BundleData.type b ≠ 0) (Message_bundles message) →
  unpackb serialized = Some (PDict (Message_dictify message)) →
  deserialize serialized = Ok (Message_wire_form message).
Proof.
  intros Hv Hty Hun. apply deserialize_dictified.
  - by apply Message_wire_form_valid.
  - by apply Message_wire_form_exact.
  - by rewrite Message_dictify_wire_form.
Qed.

End messages_on_wire.

Section message_round_trip.
Context `{truth : EIDTruth, codec : Msgpack}.

(** X9.  A valid message whose bundles have a non-zero type comes back from
    [deserialize (serialize m)] with every falsy [submitter] or
    [named_data] of its bundles replaced by [None], given that msgpack
    unpacks what it packed. *)
Theorem deserialize_serialize_wire_form (message : Message) :
  Message_valid message →
  Forall (λ b, BundleData.type b ≠ 0) (Message_bundles message) →
  unpackb (packb (PDict (Message_dictify message)))
    = Some (PDict (Message_dictify message)) →
  deserialize (serialize message) = Ok (Message_wire_form message).
Proof. intros Hv Hty Hun. by apply deserialize_dictified_normal. Qed.

End message_round_trip.

Section decoding.
Context `{truth : EIDTruth}.

Lemma mapM_Forall {A B} (f : A → result B) (P : B → Prop) (l : list A)
    (l' : list B) :
  (∀ a b, f a = Ok b → P b) → mapM f l = Ok l' → Forall P l'.
Proof.
  intros Hf. revert l'. induction l as [|a l IH]; intros l'; cbn.
  - by intros [= <-].
  - intros (b & Hb & H)%bind_Ok_inv.
    apply bind_Ok_inv in H as (bs & Hbs & [= <-]).
    constructor; [by eapply Hf | by apply IH].
Qed.

(** The checks of the message classes, check by check. *)
Lemma Reply_post_init_spec (m : Reply.t) :
  Reply.post_init m = Ok tt ↔
  Reply.type m = REPLY ∧ Reply.success m = negb (str_bool (Reply.error m)).
Proof.
  unfold Reply.post_init, raise_if.
  destruct (num_eqb_spec (Reply.type m) REPLY), (Reply.success m),
    (str_bool (Reply.error m)); cbn; split; try done; by intros [? ?].
Qed.

Lemma FetchReply_post_init_spec (m : FetchReply.t) :
  FetchReply.post_init m = Ok tt ↔ FetchReply.type m = FETCH_REPLY.
Proof.
  unfold FetchReply.post_init, raise_if.
  by destruct (num_eqb_spec (FetchReply.type m) FETCH_REPLY).
Qed.

Lemma BundleCreate_post_init_spec (m : BundleCreate.t) :
  BundleCreate.post_init m = Ok tt ↔ BundleCreate.type m = CREATE.
Proof.
  unfold BundleCreate.post_init, raise_if.
  by destruct (num_eqb_spec (BundleCreate.type m) CREATE).
Qed.

Lemma Reply_from_dict_valid data m :
  Reply.from_dict data = Ok m → Reply.post_init m = Ok tt.
Proof.
  unfold Reply.from_dict. intros H.
  do 7 (apply bind_Ok_inv in H as (? & _ & H)).
  unfold Reply.new in H. apply bind_Ok_inv in H as ([] & Hp & [= <-]). done.
Qed.

(** A decoded [Register] has the tag of its class and an endpoint whose
    text is not empty: the check ran on the text. *)
Lemma Register_from_dict_Ok data m :
  Register.from_dict data = Ok m →
  Register.type m = REGISTER ∧ eid_text (Register.endpoint_id m) ≠ "".
Proof.
  unfold Register.from_dict. intros H.
  do 2 (apply bind_Ok_inv in H as (? & _ & H)).
  apply bind_Ok_inv in H as (ty & _ & H).
  apply bind_Ok_inv in H as (? & _ & H).
  apply bind_Ok_inv in H as (ep & _ & H).
  apply bind_Ok_inv in H as ([] & Hty & H).
  apply bind_Ok_inv in H as ([] & Hep & [= <-]). cbn.
  apply raise_if_Ok, negb_false_iff in Hty, Hep.
  split; [by destruct (num_eqb_spec ty REGISTER)|by apply str_bool_true].
Qed.

Lemma Fetch_from_dict_Ok data m :
  Fetch.from_dict data = Ok m →
  Fetch.type m = FETCH ∧ eid_text (Fetch.endpoint_id m) ≠ "".
Proof.
  unfold Fetch.from_dict. intros H.
  do 2 (apply bind_Ok_inv in H as (? & _ & H)).
  apply bind_Ok_inv in H as (ty & _ & H).
  apply bind_Ok_inv in H as (? & _ & H).
  apply bind_Ok_inv in H as (ep & _ & H).
  do 2 (apply bind_Ok_inv in H as (? & _ & H)).
  apply bind_Ok_inv in H as ([] & Hty & H).
  apply bind_Ok_inv in H as ([] & Hep & [= <-]). cbn.
  apply raise_if_Ok, negb_false_iff in Hty, Hep.
  split; [by destruct (num_eqb_spec ty FETCH)|by apply str_bool_true].
Qed.

Lemma FetchReply_from_dict_valid data m :
  FetchReply.from_dict data = Ok m →
  FetchReply.post_init m = Ok tt ∧
  Forall BundleData.valid (FetchReply.bundles m).
Proof.
  unfold FetchReply.from_dict. intros H.
  do 2 (apply bind_Ok_inv in H as (? & _ & H)).
  apply bind_Ok_inv in H as (bs & Hbs & H).
  do 7 (apply bind_Ok_inv in H as (? & _ & H)).
  unfold FetchReply.new in H. apply bind_Ok_inv in H as ([] & Hp & [= <-]).
  split; [done|]. cbn.
  eapply mapM_Forall; [|done]. cbn.
  intros v b (d & _ & Hb)%bind_Ok_inv. by eapply from_dict_valid.
Qed.

Lemma BundleCreate_from_dict_valid data m :
  BundleCreate.from_dict data = Ok m →
  BundleCreate.post_init m = Ok tt ∧ BundleData.valid (BundleCreate.bundle m).
Proof.
  unfold BundleCreate.from_dict. intros H.
  do 2 (apply bind_Ok_inv in H as (? & _ & H)).
  apply bind_Ok_inv in H as (b & Hb & H).
  do 3 (apply bind_Ok_inv in H as (? & _ & H)).
  unfold BundleCreate.new in H. apply bind_Ok_inv in H as ([] & Hp & [= <-]).
  split; [done|]. by eapply from_dict_valid.
Qed.

(** Every entry of the table builds the variant of its key, checked as its
    class checks it. *)
Lemma MESSAGE_CONSTRUCTORS_checked (x : number) from_dict data message :
  MESSAGE_CONSTRUCTORS !! x = Some from_dict →
  from_dict data = Ok message →
  match message with
  | MReply m =>
      Reply.type m = REPLY ∧
      Reply.success m = negb (str_bool (Reply.error m))
  | MRegister m =>
      Register.type m = REGISTER ∧ eid_text (Register.endpoint_id m) ≠ ""
  | MFetch m =>
      Fetch.type m = FETCH ∧ eid_text (Fetch.endpoint_id m) ≠ ""
  | MFetchReply m =>
      FetchReply.type m = FETCH_REPLY ∧
      Forall BundleData.valid (FetchReply.bundles m)
  | MBundleCreate m =>
      BundleCreate.type m = CREATE ∧
      BundleData.valid (BundleCreate.bundle m)
  end.
Proof.
  unfold MESSAGE_CONSTRUCTORS. intros Hx.
  repeat (apply lookup_insert_Some in Hx as [[_ <-]|[_ Hx]];
          [intros (m & Hm & ->)%fmap_Ok_inv|]).
  - by apply Reply_post_init_spec, (Reply_from_dict_valid data).
  - by apply (Register_from_dict_Ok data).
  - by apply (Fetch_from_dict_Ok data).
  - apply FetchReply_from_dict_valid in Hm as [Hm ?].
    by apply FetchReply_post_init_spec in Hm.
  - apply lookup_singleton_Some in Hx as [_ <-].
    intros (m & Hm & ->)%fmap_Ok_inv.
    apply BundleCreate_from_dict_valid in Hm as [Hm ?].
    by apply BundleCreate_post_init_spec in Hm.
Qed.

Context `{codec : Msgpack}.

(** X11.  A message that [deserialize] returns has the tag of its class.
    A [Reply] has [success] the negation of the truth value of [error]; a
    [FetchReply] need not.  The endpoint of a [Register] or of a [Fetch]
    has a text that is not empty: it was checked as the decoded [str], so
    the null endpoint [dtn:none] passes.  Every bundle that a [FetchReply]
    or a [BundleCreate] carries passed the checks of construction. *)
Theorem deserialize_checked (serialized : list Byte.byte) (message : Message) :
  deserialize serialized = Ok message →
  match message with
  | MReply m =>
      Reply.type m = REPLY ∧
      Reply.success m = negb (str_bool (Reply.error m))
  | MRegister m =>
      Register.type m = REGISTER ∧ eid_text (Register.endpoint_id m) ≠ ""
  | MFetch m =>
      Fetch.type m = FETCH ∧ eid_text (Fetch.endpoint_id m) ≠ ""
  | MFetchReply m =>
      FetchReply.type m = FETCH_REPLY ∧
      Forall BundleData.valid (FetchReply.bundles m)
  | MBundleCreate m =>
      BundleCreate.type m = CREATE ∧
      BundleData.valid (BundleCreate.bundle m)
  end.
Proof.
  unfold deserialize. intros H.
  apply bind_Ok_inv in H as (data_dict & _ & H).
  apply bind_Ok_inv in H as (tag & _ & H).
  apply bind_Ok_inv in H as ([from_dict|] & Hl & H); [|done].
  destruct data_dict as [| | | | | | |d]; try done.
  destruct tag; try done; cbn in Hl; simplify_eq;
    by eapply MESSAGE_CONSTRUCTORS_checked.
Qed.

End decoding.

Section decoding_errors.
Context `{truth : EIDTruth}.

(** X4.  [BundleData.from_dict] raises [KeyError] when the dict has no
    [source], whatever else it holds: the address is read before the class
    is called, so neither a missing [type] nor an unknown key is reported. *)
Theorem BundleData_from_dict_no_address (data : gmap string pyval) :
  data !! "source" = None →
  BundleDataCodec.from_dict data = Raise KeyError.
Proof. unfold BundleDataCodec.from_dict, getitem. by intros ->. Qed.

Lemma check_kwargs_keys (fields : list string) (data : gmap string pyval) :
  check_kwargs fields fields data = Ok tt ↔ dom data = list_to_set fields.
Proof.
  unfold check_kwargs, raise_if.
  destruct (bool_decide (dom data ⊆ list_to_set fields)) eqn:Hsub; cbn.
  - apply bool_decide_eq_true in Hsub.
    destruct (forallb _ fields) eqn:Hall; cbn.
    + split; [intros _|done]. apply set_eq. intros key. split; [apply Hsub|].
      rewrite elem_of_list_to_set. intros Hk.
      rewrite forallb_forall in Hall.
      apply list_elem_of_In, Hall, bool_decide_eq_true in Hk.
      by apply elem_of_dom.
    + split; [done|]. intros Hdom. exfalso.
      apply not_true_iff_false in Hall. apply Hall.
      apply forallb_forall. intros key Hk%list_elem_of_In.
      apply bool_decide_eq_true, elem_of_dom. rewrite Hdom.
      by apply elem_of_list_to_set.
  - apply bool_decide_eq_false in Hsub. split; [done|].
    intros Hdom. exfalso. apply Hsub. by rewrite Hdom.
Qed.

Lemma check_kwargs_cases (fields required : list string)
    (data : gmap string pyval) :
  check_kwargs fields required data = Ok tt ∨
  check_kwargs fields required data = Raise TypeError.
Proof.
  unfold check_kwargs, raise_if.
  destruct (bool_decide _); cbn; [|by right].
  destruct (forallb _ _); cbn; [by left|by right].
Qed.

(** X5.  [from_dict] of [Reply], [Register] and [Fetch] raises [TypeError]
    whenever the keys of the dict are not exactly the fields of the class,
    whatever the values. *)
Theorem from_dict_wrong_keys (data : gmap string pyval) :
  (dom data ≠ list_to_set Reply.fields →
     Reply.from_dict data = Raise TypeError) ∧
  (dom data ≠ list_to_set Register.fields →
     Register.from_dict data = Raise TypeError) ∧
  (dom data ≠ list_to_set Fetch.fields →
     Fetch.from_dict data = Raise TypeError).
Proof.
  repeat split; intros Hdom;
    [unfold Reply.from_dict; destruct (check_kwargs_cases Reply.fields Reply.fields data) as [Hc|Hc]
    |unfold Register.from_dict; destruct (check_kwargs_cases Register.fields Register.fields data) as [Hc|Hc]
    |unfold Fetch.from_dict; destruct (check_kwargs_cases Fetch.fields Fetch.fields data) as [Hc|Hc]];
    try (by rewrite Hc); by apply check_kwargs_keys in Hc.
Qed.

(** X6.  From a dict with [type], [source] and [destination] only,
    [BundleData.from_dict] constructs the bundle with every other field at
    its default. *)
Theorem BundleData_from_dict_required_only (ty : Z) (src dst : string) :
  BundleDataCodec.from_dict
    {[ "type" := PInt ty; "source" := PStr src; "destination" := PStr dst ]}
  = BundleData.new (bundle_defaults ty (mkEID src) (mkEID dst)).
Proof.
  unfold BundleDataCodec.from_dict.
  assert (check_kwargs BundleDataCodec.fields ["type"; "source"; "destination"]
            {[ "type" := PInt ty; "source" := PStr src;
               "destination" := PStr dst ]} = Ok tt) as -> by by vm_compute.
  done.
Qed.

Context `{codec : Msgpack}.

(** X12.  [deserialize] raises the exception of msgpack when the bytes
     cannot be unpacked, [TypeError] when they unpack to a value that is no
     map, and [KeyError] when they unpack to a map without [type]. *)
Theorem deserialize_not_a_message (serialized : list Byte.byte) :
  (unpackb serialized = None → deserialize serialized = Raise UnpackError) ∧
  (∀ value, unpackb serialized = Some value →
     (∀ d, value ≠ PDict d) → deserialize serialized = Raise TypeError) ∧
  (∀ d, unpackb serialized = Some (PDict d) → d !! "type" = None →
     deserialize serialized = Raise KeyError).
Proof.
  unfold deserialize. repeat split.
  - by intros ->.
  - intros value -> Hd. destruct value; try done. by destruct (Hd d).
  - intros d -> Hty. cbn [from_option]. rewrite bind_Ok. cbn [subscript].
    unfold getitem. by rewrite Hty.
Qed.

End decoding_errors.

Section no_collision.
Context `{truth : EIDTruth}.

(** X10.  Two valid messages whose bundles hold [None] or a truthy value in
     their optional fields are equal when their dictified forms are. *)
Theorem Message_dictify_inj (m1 m2 : Message) :
  Message_valid m1 → Message_exact_on_wire m1 →
  Message_valid m2 → Message_exact_on_wire m2 →
  Message_dictify m1 = Message_dictify m2 → m1 = m2.
Proof.
  intros Hv1 Hw1 Hv2 Hw2 Heq.
  pose (codec := msgpack_of (PDict (Message_dictify m1))).
  assert (deserialize (codec := codec) [] = Ok m1) as H1
    by by apply deserialize_dictified.
  assert (deserialize (codec := codec) [] = Ok m2) as H2.
  { apply deserialize_dictified; [done..|]. by rewrite <- Heq. }
  congruence.
Qed.

End no_collision.

Section broker_state.
Context `{truth : EIDTruth, codec : Msgpack, jobs : Jobs}.
Import Broker.

Implicit Types (self : Broker.t) (bundle : BundleData.t).

Lemma set_discovered_nodes_same self :
  set_discovered_nodes self (discovered_nodes self) = self.
Proof. by destruct self. Qed.

Lemma discover_alter self key eid :
  (discover self key eid).1 =
    set_discovered_nodes self (add_node key eid (discovered_nodes self)).
Proof.
  unfold discover, add_node.
  destruct (discovered_nodes self !! key) as [nodes|] eqn:Hk; cbn.
  - f_equal. apply map_eq. intros k.
    destruct (decide (key = k)) as [->|Hne].
    + by rewrite lookup_insert_eq, lookup_alter_eq, Hk.
    + by rewrite lookup_insert_ne, lookup_alter_ne.
  - rewrite <- (set_discovered_nodes_same self) at 1. f_equal.
    apply map_eq. intros k.
    destruct (decide (key = k)) as [->|Hne].
    + by rewrite lookup_alter_eq, Hk.
    + by rewrite lookup_alter_ne.
Qed.

(** The broker after one bundle: the discovered nodes grow by what the
    bundle records, nothing else changes. *)
Lemma _handle_bundle_state self bundle :
  (_handle_bundle self bundle).1 =
    match recorded self bundle with
    | Some (key, eid) =>
        set_discovered_nodes self (add_node key eid (discovered_nodes self))
    | None => self
    end.
Proof.
  unfold _handle_bundle, recorded, _handle_discovery.
  destruct (num_eqb_spec (BundleData.type bundle) JOB_QUERY) as [Hq|Hq].
  { rewrite Hq. done. }
  destruct (num_eqb_spec (BundleData.type bundle) BROKER_ANNOUNCE) as [Ha|Ha].
  { rewrite Ha. num_compute.
    case_bool_decide; [|done].
    rewrite <- discover_alter. by destruct (discover _ _ _). }
  destruct (num_eqb_spec (BundleData.type bundle) BROKER_REQUEST) as [Hr|Hr].
  { rewrite Hr. num_compute.
    rewrite <- discover_alter. by destruct (discover _ _ _). }
  by destruct (_ && _).
Qed.


Lemma recorded_frame self self' bundle :
  node_id self' = node_id self → recorded self' bundle = recorded self bundle.
Proof. unfold recorded. by intros ->. Qed.

Lemma run_cons self bundle (history : list BundleData.t) :
  run self (bundle :: history) = run (_handle_bundle self bundle).1 history.
Proof. done. Qed.

Lemma run_app self (before after : list BundleData.t) :
  run self (before ++ after) = run (run self before) after.
Proof. unfold run. apply foldl_app. Qed.

(** X15.  Whatever bundles the broker handles, its EID, its role, its
     completed jobs and its queued jobs stay what they were. *)
Theorem run_keeps_identity_and_jobs self (history : list BundleData.t) :
  node_id (run self history) = node_id self ∧
  node_type (run self history) = node_type self ∧
  completed_jobs (run self history) = completed_jobs self ∧
  queued_jobs (run self history) = queued_jobs self.
Proof.
  revert self. induction history as [|bundle history IH]; intros self; [done|].
  rewrite run_cons.
  destruct (IH (_handle_bundle self bundle).1) as (-> & -> & -> & ->).
  apply _handle_bundle_frame.
Qed.

Lemma add_node_lookup key eid (d : gmap number (gset EID)) k :
  add_node key eid d !! k =
    if decide (key = k) then (λ nodes, {[eid]} ∪ nodes) <$> d !! k else d !! k.
Proof.
  unfold add_node. case_decide as Hk.
  - subst. apply lookup_alter_eq.
  - by apply lookup_alter_ne.
Qed.

Lemma add_node_idemp key eid (d : gmap number (gset EID)) :
  add_node key eid (add_node key eid d) = add_node key eid d.
Proof.
  apply map_eq. intros k. rewrite !add_node_lookup.
  case_decide; [|done]. destruct (d !! k) as [nodes|]; [|done].
  cbn. by rewrite (assoc_L (∪)), (idemp_L (∪)).
Qed.

Lemma add_node_comm key1 eid1 key2 eid2 (d : gmap number (gset EID)) :
  add_node key1 eid1 (add_node key2 eid2 d)
    = add_node key2 eid2 (add_node key1 eid1 d).
Proof.
  apply map_eq. intros k. rewrite !add_node_lookup.
  repeat case_decide; try done. destruct (d !! k) as [nodes|]; [|done].
  cbn. by rewrite !(assoc_L (∪)), (comm_L (∪) {[eid1]}).
Qed.

(** X18.  Handling the same bundle a second time changes nothing: the
     broker after the second call is the broker after the first. *)
Theorem handle_bundle_twice self bundle :
  (_handle_bundle (_handle_bundle self bundle).1 bundle).1
    = (_handle_bundle self bundle).1.
Proof.
  rewrite (_handle_bundle_state (_handle_bundle self bundle).1).
  rewrite (recorded_frame self) by apply _handle_bundle_frame.
  rewrite (_handle_bundle_state self).
  destruct (recorded self bundle) as [[key eid]|]; [|done].
  cbn. f_equal. apply add_node_idemp.
Qed.

Lemma _handle_bundle_comm self bundle1 bundle2 :
  (_handle_bundle (_handle_bundle self bundle1).1 bundle2).1
    = (_handle_bundle (_handle_bundle self bundle2).1 bundle1).1.
Proof.
  rewrite (_handle_bundle_state (_handle_bundle self bundle1).1 bundle2).
  rewrite (_handle_bundle_state (_handle_bundle self bundle2).1 bundle1).
  rewrite (recorded_frame self (_handle_bundle self bundle1).1),
    (recorded_frame self (_handle_bundle self bundle2).1)
    by apply _handle_bundle_frame.
  rewrite !(_handle_bundle_state self).
  destruct (recorded self bundle1) as [[key1 eid1]|],
    (recorded self bundle2) as [[key2 eid2]|]; try done.
  cbn. f_equal. apply add_node_comm.
Qed.

(** X19.  The broker that results from handling a list of bundles does not
     depend on their order. *)
Theorem run_any_order self (history1 history2 : list BundleData.t) :
  history1 ≡ₚ history2 → run self history1 = run self history2.
Proof.
  intros Hp. revert self.
  induction Hp as [|bundle l1 l2 _ IH|b1 b2 l|l1 l2 l3 _ IH1 _ IH2];
    intros self.
  - done.
  - rewrite !run_cons. apply IH.
  - rewrite !run_cons. by rewrite _handle_bundle_comm.
  - by rewrite IH1.
Qed.

End broker_state.

Section broker_discovered.
Context `{truth : EIDTruth, codec : Msgpack, jobs : Jobs}.
Import Broker.

Implicit Types (self : Broker.t) (bundle : BundleData.t).

Lemma _handle_bundle_discovered self bundle :
  discovered_nodes (_handle_bundle self bundle).1 =
    match recorded self bundle with
    | Some (key, eid) => add_node key eid (discovered_nodes self)
    | None => discovered_nodes self
    end.
Proof.
  rewrite _handle_bundle_state.
  by destruct (recorded self bundle) as [[key eid]|].
Qed.

Lemma _handle_bundle_grows self bundle (key : number) (nodes : gset EID) :
  discovered_nodes self !! key = Some nodes →
  ∃ nodes', discovered_nodes (_handle_bundle self bundle).1 !! key = Some nodes'
            ∧ nodes ⊆ nodes'.
Proof.
  intros Hk. rewrite _handle_bundle_discovered.
  destruct (recorded self bundle) as [[key' eid]|]; [|by exists nodes].
  rewrite add_node_lookup, Hk. case_decide.
  - exists ({[eid]} ∪ nodes). split; [done|]. apply union_subseteq_r.
  - by exists nodes.
Qed.

(** X16.  Handling bundles never forgets a node: the set under a role key
     after any bundles contains the set that was there before. *)
Theorem run_keeps_discovered self (history : list BundleData.t) (key : number)
    (nodes : gset EID) :
  discovered_nodes self !! key = Some nodes →
  ∃ nodes', discovered_nodes (run self history) !! key = Some nodes'
            ∧ nodes ⊆ nodes'.
Proof.
  revert self nodes.
  induction history as [|bundle history IH]; intros self nodes Hk.
  - by exists nodes.
  - rewrite run_cons.
    destruct (_handle_bundle_grows self bundle key nodes Hk)
      as (nodes1 & Hk1 & Hsub1).
    destruct (IH _ _ Hk1) as (nodes2 & Hk2 & Hsub2).
    exists nodes2. split; [done|]. by transitivity nodes1.
Qed.

Lemma _handle_bundle_source self bundle (key : number) (nodes' : gset EID) eid :
  discovered_nodes (_handle_bundle self bundle).1 !! key = Some nodes' →
  eid ∈ nodes' →
  (∃ nodes, discovered_nodes self !! key = Some nodes ∧ eid ∈ nodes) ∨
  recorded self bundle = Some (key, eid).
Proof.
  rewrite _handle_bundle_discovered.
  destruct (recorded self bundle) as [[key' eid']|]; [|by left; eauto].
  rewrite add_node_lookup. case_decide as Hkey.
  - subst key'. destruct (discovered_nodes self !! key) as [nodes|]; [|done].
    cbn. intros [= <-] [->%elem_of_singleton|Hin]%elem_of_union.
    + by right.
    + left. eauto.
  - left. eauto.
Qed.

Lemma run_source self (history : list BundleData.t) (key : number)
    (nodes' : gset EID) eid :
  discovered_nodes (run self history) !! key = Some nodes' →
  eid ∈ nodes' →
  (∃ nodes, discovered_nodes self !! key = Some nodes ∧ eid ∈ nodes) ∨
  ∃ bundle, bundle ∈ history ∧ recorded self bundle = Some (key, eid).
Proof.
  revert self. induction history as [|bundle history IH]; intros self.
  - left. eauto.
  - rewrite run_cons. intros Hk Hin.
    destruct (IH _ Hk Hin) as [(nodes1 & Hk1 & Hin1)|(b & Hb & Hrec)].
    + destruct (_handle_bundle_source _ _ _ _ _ Hk1 Hin1) as [?|Hrec];
        [by left|].
      right. exists bundle. split; [apply list_elem_of_here|done].
    + right. exists b. split; [by apply list_elem_of_further|].
      rewrite <- Hrec. symmetry. apply recorded_frame, _handle_bundle_frame.
Qed.

End broker_discovered.

Section broker_provenance.
Context `{truth : EIDTruth, codec : Msgpack, jobs : Jobs}.
Import Broker.

(** X17.  Every node that a broker has discovered since it was created is
    the source of a bundle it handled: of an announcement, recorded under
    [BROKER] and different from the broker's own EID, or of a request,
    recorded under the node type of the request. *)
Theorem discovered_nodes_are_sources (node_id : EID)
    (history : list BundleData.t) (key : number) (nodes : gset EID) (eid : EID) :
  discovered_nodes (run (init node_id) history) !! key = Some nodes →
  eid ∈ nodes →
  ∃ bundle,
    bundle ∈ history ∧ BundleData.source bundle = eid ∧
    (BundleData.type bundle = BROKER_ANNOUNCE ∧ key = BROKER ∧ eid ≠ node_id ∨
     BundleData.type bundle = BROKER_REQUEST ∧
     key = BundleData.node_type bundle).
Proof.
  intros Hk Hin.
  destruct (run_source _ _ _ _ _ Hk Hin) as [(nodes0 & Hk0 & Hin0)|(b & Hb & Hrec)].
  - exfalso. cbn in Hk0.
    repeat (apply lookup_insert_Some in Hk0 as [[_ <-]|[_ Hk0]];
            [by apply not_elem_of_empty in Hin0|]).
    by rewrite lookup_empty in Hk0.
  - exists b. split; [done|]. unfold recorded in Hrec. cbn in Hrec.
    destruct (num_eqb_spec (BundleData.type b) 1) as [Ha|_].
    + case_bool_decide as Hne; [|done]. injection Hrec as <- <-.
      split; [done|]. by left.
    + destruct (num_eqb_spec (BundleData.type b) 2) as [Hr|_]; [|done].
      injection Hrec as <- <-. split; [done|]. by right.
Qed.

End broker_provenance.

Section broker_replies.
Context `{truth : EIDTruth, codec : Msgpack, jobs : Jobs}.
Import Broker.

Implicit Types (self : Broker.t) (bundle : BundleData.t).

(** X14.  A bundle that is neither a job query, nor a broker announcement,
     nor a broker request gets no reply and leaves the broker as it was;
     this holds for [BROKER_ACK] and for every job and named-data bundle
     but [JOB_QUERY]. *)
Theorem handle_bundle_ignored self bundle :
  BundleData.type bundle ≠ JOB_QUERY →
  BundleData.type bundle ≠ BROKER_ANNOUNCE →
  BundleData.type bundle ≠ BROKER_REQUEST →
  _handle_bundle self bundle = (self, Ok None).
Proof.
  intros Hq Ha Hr. unfold _handle_bundle, _handle_discovery.
  destruct (num_eqb_spec (BundleData.type bundle) JOB_QUERY); [done|].
  destruct (num_eqb_spec (BundleData.type bundle) BROKER_ANNOUNCE); [done|].
  destruct (num_eqb_spec (BundleData.type bundle) BROKER_REQUEST); [done|].
  by destruct (_ && _).
Qed.

Lemma reply_due_valid self bundle reply :
  EID_bool (node_id self) = true →
  BundleData.valid bundle →
  reply_due self bundle = Some reply →
  BundleData.valid reply ∧ BundleData.exact_on_wire reply.
Proof.
  intros Hid Hv. pose proof Hv as (Hs & _ & _ & _ & Hsub & _)%valid_spec.
  unfold reply_due.
  destruct (num_eqb_spec (BundleData.type bundle) JOB_QUERY) as [Hq|_].
  - intros [= <-]. specialize (Hsub (or_introl Hq)). split.
    + by apply job_list_valid.
    + split; [done|]. cbn. split; [done|]. by intros [? [=]].
  - destruct (BundleData.type bundle =? BROKER_REQUEST); [|done].
    intros [= <-]. split.
    + by apply ack_valid.
    + split; [done|]. cbn. split; by intros [? [=]].
Qed.

(** The reply of the broker to a valid bundle is the reply that is due,
    when the node type of a request is a key of the discovered nodes. *)
Lemma _handle_bundle_reply_found self bundle :
  well_formed self →
  BundleData.valid bundle →
  (BundleData.type bundle = BROKER_REQUEST →
     is_Some (discovered_nodes self !! BundleData.node_type bundle)) →
  (_handle_bundle self bundle).2 = Ok (reply_due self bundle).
Proof.
  intros (Hid & Hrole & Hroles) Hv Hkey.
  pose proof Hv as (Hs & _ & _ & _ & Hsub & _)%valid_spec.
  unfold reply_due.
  destruct (num_eqb_spec (BundleData.type bundle) JOB_QUERY) as [Hq|Hq].
  { rewrite _handle_bundle_job_query by done. unfold _handle_job_query.
    cbn [snd]. rewrite new_valid; [done|].
    apply job_list_valid; [done..|]. apply Hsub. by left. }
  destruct (num_eqb_spec (BundleData.type bundle) BROKER_ANNOUNCE) as [Ha|Ha].
  { rewrite _handle_bundle_announce, _handle_discovery_announce by done.
    assert ((BundleData.type bundle =? BROKER_REQUEST) = false) as ->.
    { rewrite Ha. by num_compute. }
    case_decide; [done|].
    destruct (Hroles BROKER) as [nodes Hn].
    destruct (discover_found self _ (BundleData.source bundle) _ Hn)
      as (self' & -> & _). done. }
  destruct (num_eqb_spec (BundleData.type bundle) BROKER_REQUEST) as [Hr|Hr].
  { destruct (Hkey Hr) as [nodes Hn].
    rewrite _handle_bundle_request, _handle_discovery_request by done.
    destruct (discover_found self _ (BundleData.source bundle) _ Hn)
      as (self' & -> & _). cbn [fst snd]. rewrite Hrole, bind_Ok.
    by rewrite new_valid by by apply ack_valid. }
  unfold _handle_bundle, _handle_discovery.
  destruct (num_eqb_spec (BundleData.type bundle) JOB_QUERY); [done|].
  destruct (num_eqb_spec (BundleData.type bundle) BROKER_ANNOUNCE); [done|].
  destruct (num_eqb_spec (BundleData.type bundle) BROKER_REQUEST); [done|].
  by destruct (_ && _).
Qed.

Lemma _handle_bundle_reply self bundle :
  well_formed self →
  BundleData.valid bundle →
  (BundleData.type bundle = BROKER_REQUEST →
     is_NodeType (BundleData.node_type bundle)) →
  (_handle_bundle self bundle).2 = Ok (reply_due self bundle).
Proof.
  intros Hwf Hv Hnt. apply _handle_bundle_reply_found; [done..|].
  intros [role ->]%Hnt. by apply Hwf.
Qed.

(** A reply that the broker gives is the reply that is due. *)
Lemma _handle_bundle_replied self bundle reply :
  well_formed self →
  BundleData.valid bundle →
  (_handle_bundle self bundle).2 = Ok (Some reply) →
  reply_due self bundle = Some reply.
Proof.
  intros Hwf Hv Hreply.
  destruct (decide (is_Some (discovered_nodes self
                               !! BundleData.node_type bundle))) as [Hk|Hk].
  - rewrite _handle_bundle_reply_found in Hreply by done. by simplify_eq.
  - destruct (decide (BundleData.type bundle = BROKER_REQUEST)) as [Hr|Hr].
    + exfalso. apply eq_None_not_Some in Hk.
      rewrite _handle_bundle_request, _handle_discovery_request in Hreply
        by done.
      unfold discover in Hreply. by rewrite Hk in Hreply.
    + rewrite _handle_bundle_reply_found in Hreply by done. by simplify_eq.
Qed.

Lemma reply_due_frame self self' bundle :
  node_id self' = node_id self →
  completed_jobs self' = completed_jobs self →
  queued_jobs self' = queued_jobs self →
  reply_due self' bundle = reply_due self bundle.
Proof. unfold reply_due. by intros -> -> ->. Qed.

Lemma handle_each_well_formed self (bundles replies : list BundleData.t) :
  well_formed self →
  Forall BundleData.valid bundles →
  Forall (λ bundle, BundleData.type bundle = BROKER_REQUEST →
                    is_NodeType (BundleData.node_type bundle)) bundles →
  handle_each self bundles replies =
    (run self bundles, Ok (replies ++ omap (reply_due self) bundles)).
Proof.
  revert self replies.
  induction bundles as [|bundle bundles IH]; intros self replies Hwf Hvs Hnts.
  - cbn. by rewrite app_nil_r.
  - apply Forall_cons in Hvs as [Hv Hvs].
    apply Forall_cons in Hnts as [Hnt Hnts].
    pose proof (_handle_bundle_reply self bundle Hwf Hv Hnt) as Hreply.
    pose proof (_handle_bundle_well_formed self bundle Hwf) as Hwf'.
    destruct (_handle_bundle_frame self bundle) as (Hid & _ & Hc & Hq).
    cbn [handle_each]. rewrite run_cons.
    destruct (_handle_bundle self bundle) as [self' reply]. cbn in *.
    subst reply. cbn [omap].
    destruct (reply_due self bundle) as [reply|] eqn:Hdue.
    + rewrite IH by done. f_equal. f_equal. rewrite <- (assoc_L (++)). cbn.
      do 2 f_equal. apply list_omap_ext, Forall2_same_length_lookup_2; [done|].
      intros i b1 b2 H1 H2. simplify_eq. by apply reply_due_frame.
    + rewrite IH by done. do 3 f_equal.
      apply list_omap_ext, Forall2_same_length_lookup_2; [done|].
      intros i b1 b2 H1 H2. simplify_eq. by apply reply_due_frame.
Qed.

End broker_replies.

Section cycle.
Context `{truth : EIDTruth, codec : Msgpack, jobs : Jobs}.
Import Broker.

Implicit Types (self : Broker.t) (bundle : BundleData.t).

(** X21.  One pass of the bundle handler over a batch of valid bundles in
     which every request names one of the four roles, at a broker with an
     address of its own: every bundle is handled; the replies due, in the
     order of the bundles, are handed over as one batch when there is any;
     the only exception that can be logged is the one of the submission. *)
Theorem handle_bundles_valid_batch self (bundles : list BundleData.t)
    (send : list BundleData.t → result unit) :
  well_formed self →
  Forall BundleData.valid bundles →
  Forall (λ bundle, BundleData.type bundle = BROKER_REQUEST →
                    is_NodeType (BundleData.node_type bundle)) bundles →
  let replies := omap (reply_due self) bundles in
  _handle_bundles self (Ok bundles) send =
    mkCycle (run self bundles)
      (if list_bool replies then [replies] else [])
      (if list_bool replies
       then match send replies with Raise err => [err] | Ok _ => [] end
       else []).
Proof.
  intros Hwf Hvs Hnts replies. unfold _handle_bundles.
  destruct bundles as [|bundle bundles]; [done|]. cbn [list_bool].
  rewrite handle_each_well_formed by done. cbn [app]. fold replies.
  destruct (list_bool replies); [|done]. by destruct (send replies).
Qed.

(** X22.  One pass of the bundle handler hands at most one batch to the
     agent, never an empty one, and logs at most one exception. *)
Theorem handle_bundles_submits_once self
    (fetched : result (list BundleData.t))
    (send : list BundleData.t → result unit) :
  let pass := _handle_bundles self fetched send in
  (submitted pass = [] ∨ ∃ batch, submitted pass = [batch] ∧ batch ≠ []) ∧
  (length (logged pass) ≤ 1)%nat.
Proof.
  cbn. unfold _handle_bundles.
  destruct fetched as [bundles|err]; [|split; [by left|cbn; lia]].
  destruct (list_bool bundles); [|split; [by left|cbn; lia]].
  destruct (handle_each self bundles []) as [self' [replies|err]];
    [|split; [by left|cbn; lia]].
  destruct replies as [|reply replies]; cbn [list_bool];
    [split; [by left|cbn; lia]|].
  destruct (send _); (split; [right; by eexists|cbn; lia]).
Qed.

End cycle.

Section announce.
Context `{truth : EIDTruth, codec : Msgpack, jobs : Jobs}.
Import Broker.

Implicit Types (self : Broker.t) (bundle : BundleData.t).

Lemma announcement_Ok self (BROADCAST_ADDRESS : EID) bundle :
  announcement self BROADCAST_ADDRESS = Ok bundle →
  BundleData.valid bundle ∧
  BundleData.type bundle = BROKER_ANNOUNCE ∧
  BundleData.source bundle = node_id self.
Proof.
  unfold announcement. intros [-> Hv]%new_Ok_inv. by split.
Qed.

(** X23.  The announcement that a broker builds is ignored by the broker
     itself, without reply.  Another broker, of a different EID and with
     its role sets, does not reply either, and has the announcer among its
     discovered brokers afterwards: the EID of the announcer is in the set
     under [BROKER], which is the set of before with that EID added; the
     sets under the other keys and the other attributes are as before. *)
Theorem announcement_heard self other (BROADCAST_ADDRESS : EID) bundle :
  announcement self BROADCAST_ADDRESS = Ok bundle →
  _handle_bundle self bundle = (self, Ok None) ∧
  (roles_present other →
   node_id other ≠ node_id self →
   ∃ other' brokers brokers',
     _handle_bundle other bundle = (other', Ok None) ∧
     discovered_nodes other !! (BROKER : number) = Some brokers ∧
     discovered_nodes other' !! (BROKER : number) = Some brokers' ∧
     node_id self ∈ brokers' ∧
     brokers' = {[node_id self]} ∪ brokers ∧
     (∀ key : number, key ≠ BROKER →
        discovered_nodes other' !! key = discovered_nodes other !! key) ∧
     node_id other' = node_id other ∧ node_type other' = node_type other ∧
     completed_jobs other' = completed_jobs other ∧
     queued_jobs other' = queued_jobs other).
Proof.
  intros (Hv & Hty & Hsrc)%announcement_Ok.
  rewrite !_handle_bundle_announce, !_handle_discovery_announce by done.
  rewrite Hsrc. split.
  - by rewrite decide_True.
  - intros Hroles Hne. rewrite decide_False by done.
    destruct (Hroles BROKER) as [brokers Hb].
    destruct (discover_found other _ (node_id self) _ Hb)
      as (other' & Hd & Hnew & Hother & Hframe).
    exists other', brokers, ({[node_id self]} ∪ brokers).
    rewrite Hd. split; [done|]. split; [done|]. split; [done|].
    split; [|by split].
    apply elem_of_union_l. by apply elem_of_singleton.
Qed.

(** X24.  A reply of a broker with an address of its own to a valid bundle,
     wrapped in [BundleCreate], comes back from [deserialize (serialize m)]
     as it was, given that msgpack unpacks what it packed. *)
Theorem broker_reply_survives_wire self bundle reply :
  well_formed self →
  BundleData.valid bundle →
  (_handle_bundle self bundle).2 = Ok (Some reply) →
  let message :=
    MBundleCreate {| BundleCreate.type := CREATE;
                     BundleCreate.bundle := reply |} in
  unpackb (packb (PDict (Message_dictify message)))
    = Some (PDict (Message_dictify message)) →
  deserialize (serialize message) = Ok message.
Proof.
  intros Hwf Hv Hreply message Hun.
  apply _handle_bundle_replied in Hreply as Hdue; [|done..].
  destruct Hwf as (Hid & _).
  destruct (reply_due_valid self bundle reply Hid Hv Hdue) as [Hrv Hrw].
  apply deserialize_dictified; [|done..]. split; [|done].
  by apply BundleCreate_post_init_spec.
Qed.

(** X20.  A broker with an address of its own handles without an exception
     every valid bundle that, when it is a request, names one of the four
     roles; it replies exactly to job queries and broker requests, and stays
     a broker with an address and its four role sets. *)
Theorem broker_never_fails self bundle :
  well_formed self →
  BundleData.valid bundle →
  (BundleData.type bundle = BROKER_REQUEST →
     is_NodeType (BundleData.node_type bundle)) →
  ∃ reply,
    (_handle_bundle self bundle).2 = Ok reply ∧
    (is_Some reply ↔
       BundleData.type bundle = JOB_QUERY ∨
       BundleData.type bundle = BROKER_REQUEST) ∧
    well_formed (_handle_bundle self bundle).1.
Proof.
  intros Hwf Hv Hnt. exists (reply_due self bundle).
  split; [by apply _handle_bundle_reply|].
  split; [|by apply _handle_bundle_well_formed].
  unfold reply_due.
  destruct (num_eqb_spec (BundleData.type bundle) JOB_QUERY) as [Hq|Hq].
  { split; [by left|by eexists]. }
  destruct (num_eqb_spec (BundleData.type bundle) BROKER_REQUEST) as [Hr|Hr].
  { split; [by right|by eexists]. }
  split; [by intros [? [=]]|by intros [|]].
Qed.

End announce.

Section construction.
Context `{truth : EIDTruth}.


(** X2.  [Reply] is constructed exactly when its tag is [REPLY] and
    [success] is the negation of the truth value of [error].  [FetchReply],
    although a subclass, is constructed whenever its tag is [FETCH_REPLY]:
    its [__post_init__] replaces the inherited one, so [success] and
    [error] are not compared. *)
Theorem Reply_checks_FetchReply_does_not (r : Reply.t) (f : FetchReply.t) :
  (Reply.new r = Ok r ↔
     Reply.type r = REPLY ∧
     Reply.success r = negb (str_bool (Reply.error r))) ∧
  (FetchReply.new f = Ok f ↔ FetchReply.type f = FETCH_REPLY).
Proof.
  unfold Reply.new, Reply.post_init, FetchReply.new, FetchReply.post_init,
    raise_if.
  split.
  - destruct (num_eqb_spec (Reply.type r) REPLY), (Reply.success r),
      (str_bool (Reply.error r)); cbn; split; try done;
      by intros [? ?].
  - by destruct (num_eqb_spec (FetchReply.type f) FETCH_REPLY).
Qed.

(** X3.  A bundle that [BundleData.from_dict] returns passed the checks of
    construction; the dict it was read from has no key that is no field,
    and holds a number whose value is the type of the bundle and the texts
    of the two addresses of the bundle. *)
Theorem BundleData_from_dict_Ok (data : gmap string pyval) (b : BundleData.t) :
  BundleDataCodec.from_dict data = Ok b →
  BundleData.valid b ∧
  dom data ⊆ list_to_set BundleDataCodec.fields ∧
  (∃ tag, data !! "type" = Some tag ∧ as_number tag = Ok (BundleData.type b)) ∧
  data !! "source" = Some (PStr (eid_text (BundleData.source b))) ∧
  data !! "destination" = Some (PStr (eid_text (BundleData.destination b))).
Proof.
  intros H. split; [by eapply from_dict_valid|].
  unfold BundleDataCodec.from_dict, getitem in H.
  destruct (data !! "source") as [[| | | |src| | |]|]; try done.
  destruct (data !! "destination") as [[| | | |dst| | |]|]; try done.
  cbn in H.
  apply bind_Ok_inv in H as (sub & _ & H).
  apply bind_Ok_inv in H as ([] & Hk & H).
  destruct (data !! "type") as [tag|]; [|done]. cbn in H.
  apply bind_Ok_inv in H as (ty & Hty & H).
  do 5 (apply bind_Ok_inv in H as (? & _ & H)).
  apply new_Ok_inv in H as [-> _]. cbn.
  split; [|by eauto].
  unfold check_kwargs, raise_if in Hk.
  destruct (bool_decide _) eqn:Hsub; [|done].
  by apply bool_decide_eq_true in Hsub.
Qed.

End construction.

(** ** The further properties on the sample data *)

Lemma BundleData_from_dict_Ok_witness :
  let _ : EIDTruth := dtn_none_falsy in
  BundleData.valid request_from_x ∧
  dom request_from_x_dict ⊆ list_to_set BundleDataCodec.fields ∧
  (∃ tag, request_from_x_dict !! "type" = Some tag ∧
          as_number tag = Ok (BROKER_REQUEST : number)) ∧
  request_from_x_dict !! "source" = Some (PStr "dtn://x/") ∧
  request_from_x_dict !! "destination" = Some (PStr "dtn://b/").
Proof.
  intros truth.
  apply (BundleData_from_dict_Ok (truth := truth)
           request_from_x_dict request_from_x).
  reflexivity.
Defined.

Lemma BundleData_from_dict_no_address_witness :
  BundleDataCodec.from_dict (truth := dtn_none_falsy)
    {[ "destination" := PStr "dtn://b/"; "colour" := PStr "red" ]}
  = Raise KeyError.
Proof.
  apply (BundleData_from_dict_no_address (truth := dtn_none_falsy)).
  reflexivity.
Defined.

Lemma from_dict_wrong_keys_witness :
  Reply.from_dict {[ "type" := PInt 1; "success" := PBool true ]}
  = Raise TypeError.
Proof.
  apply (proj1 (from_dict_wrong_keys
                  {[ "type" := PInt 1; "success" := PBool true ]})).
  intros Hdom%(f_equal size). by vm_compute in Hdom.
Defined.

Lemma BundleData_from_dict_dictify_witness :
  let _ : EIDTruth := dtn_none_falsy in
  BundleDataCodec.from_dict (BundleData.dictify job_with_falsy_fields)
  = Ok (wire_form job_with_falsy_fields).
Proof.
  intros truth.
  apply (BundleData_from_dict_dictify (truth := truth) job_with_falsy_fields);
    [reflexivity | discriminate].
Defined.

Lemma deserialize_serialize_wire_form_witness :
  let _ : EIDTruth := dtn_none_falsy in
  let _ : Msgpack := msgpack_of (PDict (Message_dictify create_empty_name)) in
  deserialize (serialize create_empty_name)
  = Ok (Message_wire_form create_empty_name).
Proof.
  intros truth codec.
  apply (deserialize_serialize_wire_form (truth := truth) (codec := codec)).
  - split; reflexivity.
  - repeat constructor. discriminate.
  - reflexivity.
Defined.

Lemma Message_dictify_inj_witness :
  let _ : EIDTruth := dtn_none_falsy in
  Message_wire_form create_null_submitter = create_no_name.
Proof.
  intros truth.
  apply (Message_dictify_inj (truth := truth)).
  - split; reflexivity.
  - split; [discriminate|]. split; intros [? [=]].
  - split; reflexivity.
  - split; [discriminate|]. split; intros [? [=]].
  - by vm_compute.
Defined.

Lemma deserialize_checked_witness :
  let _ : EIDTruth := dtn_none_falsy in
  let _ : Msgpack := msgpack_of (PDict fetch_none_dict) in
  let fetch :=
    {| Fetch.type := FETCH; Fetch.endpoint_id := eid_none;
       Fetch.node_type := CLIENT |} in
  deserialize [] = Ok (MFetch fetch) ∧
  (Fetch.type fetch = FETCH ∧ eid_text (Fetch.endpoint_id fetch) ≠ "") ∧
  Fetch.new fetch = Raise InvalidMessageError ∧
  deserialize (codec := msgpack_of (PDict fetch_empty_dict)) []
    = Raise InvalidMessageError.
Proof.
  intros truth codec fetch.
  assert (deserialize [] = Ok (MFetch fetch)) as Hfetch by by vm_compute.
  split; [exact Hfetch|]. split; [|split; by vm_compute].
  exact (deserialize_checked (truth := truth) (codec := codec)
           [] (MFetch fetch) Hfetch).
Defined.

Lemma deserialize_not_a_message_witness :
  deserialize (truth := dtn_none_falsy) (codec := msgpack_of (PList [])) []
  = Raise TypeError.
Proof.
  apply (proj1 (proj2 (deserialize_not_a_message (truth := dtn_none_falsy)
                         (codec := msgpack_of (PList [])) [])) (PList []));
    [reflexivity | discriminate].
Defined.

Lemma handle_bundle_ignored_witness :
  Broker._handle_bundle (truth := dtn_none_falsy) (codec := msgpack_none)
    broker_busy ack_to_x
  = (broker_busy, Ok None).
Proof.
  apply (handle_bundle_ignored (truth := dtn_none_falsy)
           (codec := msgpack_none) broker_busy ack_to_x);
    by apply (bool_decide_unpack _).
Defined.

Lemma run_keeps_discovered_witness :
  ∃ nodes',
    Broker.discovered_nodes
      (Broker.run (truth := dtn_none_falsy) (codec := msgpack_none)
         broker_knows_x [announce_from_y; request_from_y])
      !! (DATASTORE : number) = Some nodes' ∧
    ({[eid_x]} : gset EID) ⊆ nodes'.
Proof.
  apply (run_keeps_discovered (truth := dtn_none_falsy)
           (codec := msgpack_none) broker_knows_x
           [announce_from_y; request_from_y] DATASTORE {[eid_x]}).
  by vm_compute.
Defined.

Lemma discovered_nodes_are_sources_witness :
  ∃ bundle,
    bundle ∈ [announce_from_y; request_from_x] ∧
    BundleData.source bundle = eid_x ∧
    (BundleData.type bundle = BROKER_ANNOUNCE ∧ (DATASTORE : number) = BROKER
       ∧ eid_x ≠ eid_b ∨
     BundleData.type bundle = BROKER_REQUEST ∧
     (DATASTORE : number) = BundleData.node_type bundle).
Proof.
  apply (discovered_nodes_are_sources (truth := dtn_none_falsy)
           (codec := msgpack_none) (jobs := numbered_jobs) eid_b
           [announce_from_y; request_from_x] DATASTORE {[eid_x]} eid_x).
  - by vm_compute.
  - by apply elem_of_singleton_2.
Defined.

Lemma run_any_order_witness :
  Broker.run (truth := dtn_none_falsy) (codec := msgpack_none)
    broker_b [announce_from_y; request_from_x]
  = Broker.run (truth := dtn_none_falsy) (codec := msgpack_none)
      broker_b [request_from_x; announce_from_y].
Proof.
  apply (run_any_order (truth := dtn_none_falsy) (codec := msgpack_none)).
  apply perm_swap.
Defined.

Lemma broker_never_fails_witness :
  let _ : EIDTruth := dtn_none_falsy in
  let _ : Msgpack := msgpack_none in
  ∃ reply,
    (Broker._handle_bundle broker_b request_from_x).2 = Ok reply ∧
    (is_Some reply ↔
       BundleData.type request_from_x = JOB_QUERY ∨
       BundleData.type request_from_x = BROKER_REQUEST) ∧
    Broker.well_formed (Broker._handle_bundle broker_b request_from_x).1.
Proof.
  intros truth codec.
  apply (broker_never_fails (truth := truth) (codec := codec)
           broker_b request_from_x).
  - by apply init_well_formed.
  - reflexivity.
  - intros _. by exists DATASTORE.
Defined.

Lemma handle_bundles_valid_batch_witness :
  let _ : EIDTruth := dtn_none_falsy in
  let _ : Msgpack := msgpack_none in
  let bundles := [announce_from_y; request_from_x; submit_from_x; query_from_x] in
  let replies := omap (reply_due broker_b) bundles in
  Broker._handle_bundles broker_b (Ok bundles) (λ _, Ok tt) =
    Broker.mkCycle (Broker.run broker_b bundles)
      (if list_bool replies then [replies] else [])
      [].
Proof.
  intros truth codec bundles.
  apply (handle_bundles_valid_batch (truth := truth) (codec := codec)
           broker_b bundles (λ _, Ok tt)).
  - by apply init_well_formed.
  - repeat constructor.
  - repeat constructor; intros Hty;
      [by exists BROKER|by exists DATASTORE
      |by apply number_of_Z_inj in Hty|by apply number_of_Z_inj in Hty].
Defined.

Lemma announcement_heard_witness :
  let _ : EIDTruth := dtn_none_falsy in
  let _ : Msgpack := msgpack_none in
  let bundle :=
    with_node_type (bundle_defaults BROKER_ANNOUNCE eid_b eid_all) BROKER in
  let other : Broker.t (jobs := numbered_jobs) := Broker.init eid_a in
  Broker._handle_bundle broker_b bundle = (broker_b, Ok None) ∧
  ∃ other' brokers brokers',
    Broker._handle_bundle other bundle = (other', Ok None) ∧
    Broker.discovered_nodes other !! (BROKER : number) = Some brokers ∧
    Broker.discovered_nodes other' !! (BROKER : number) = Some brokers' ∧
    eid_b ∈ brokers' ∧
    brokers' = {[eid_b]} ∪ brokers ∧
    (∀ key : number, key ≠ BROKER →
       Broker.discovered_nodes other' !! key
         = Broker.discovered_nodes other !! key) ∧
    Broker.node_id other' = eid_a ∧ Broker.node_type other' = BROKER ∧
    Broker.completed_jobs other' = ∅ ∧ Broker.queued_jobs other' = [].
Proof.
  intros truth codec bundle other.
  destruct (announcement_heard (truth := truth) (codec := codec)
              broker_b other eid_all bundle eq_refl) as [Hself Hother].
  split; [exact Hself|]. apply Hother.
  - by apply (init_well_formed (truth := truth) eid_a).
  - discriminate.
Defined.

Lemma broker_reply_survives_wire_witness :
  let _ : EIDTruth := dtn_none_falsy in
  let _ : Msgpack := msgpack_of (PDict (Message_dictify create_ack_to_x)) in
  deserialize (serialize create_ack_to_x) = Ok create_ack_to_x.
Proof.
  intros truth codec.
  apply (broker_reply_survives_wire (truth := truth) (codec := codec)
           (jobs := numbered_jobs) broker_b request_from_x ack_to_x).
  - by apply init_well_formed.
  - reflexivity.
  - reflexivity.
  - reflexivity.
Defined.
